(** * Touchpad gesture recognizer of cosmic-pie-menu (src/gesture.rs)

    Shallow embedding of the multitouch tracker, the gesture state machine
    [process_event], the swipe classifier and the pending-trigger time check.

    Modelling conventions:
    - [i32] values are [Z]; arithmetic wraps as in a release build
      (overflow checks off), written out by [i32_wrap].
    - [Instant] and [Duration] are [Z] milliseconds; [Instant::now()] is the
      explicit argument [now] of each step, and [elapsed] saturates at zero
      like [Instant::elapsed].
    - The slot array [[TouchSlot; MAX_SLOTS]] is a list indexed with stdpp's
      [!!] and [<[_:=_]>]; a Rust index out of bounds (a panic) makes
      [process_event] return [None]. *)

From Stdlib Require Import ZArith Lia.
From stdpp Require Import base list strings.

Open Scope Z_scope.

Module Gesture.

(** ** Machine integers *)

Definition i32_wrap (z : Z) : Z := (z + 2 ^ 31) mod 2 ^ 32 - 2 ^ 31.

(** [a - b] on [i32] *)
Definition i32_sub (a b : Z) : Z := i32_wrap (a - b).

(** [i32::abs]: [i32::MIN.abs()] is [i32::MIN] in a release build *)
Definition i32_abs (a : Z) : Z := i32_wrap (Z.abs a).

(** [v as usize] for an [i32] on a 64-bit target (sign extension) *)
Definition usize_of_i32 (v : Z) : Z := if v <? 0 then v + 2 ^ 64 else v.

(** ** Touch slots and the multitouch tracker *)

Definition MAX_SLOTS : nat := 10.

Record TouchSlot := {
  active : bool;
  x : Z;
  y : Z;
  start_x : option Z;
  start_y : option Z
}.

(** [TouchSlot::default()] *)
Definition TouchSlot_default : TouchSlot :=
  {| active := false; x := 0; y := 0; start_x := None; start_y := None |}.

Record MultiTouchTracker := {
  current_slot : nat;
  slots : list TouchSlot;
  start_captured : bool;
  first_event_time : option Z;
  min_fingers_for_start : nat
}.

(** [MultiTouchTracker::new] *)
Definition MultiTouchTracker_new (min_fingers : nat) : MultiTouchTracker :=
  {| current_slot := 0;
     slots := replicate MAX_SLOTS TouchSlot_default;
     start_captured := false;
     first_event_time := None;
     min_fingers_for_start := min_fingers |}.

Definition set_current_slot (t : MultiTouchTracker) (slot : nat) : MultiTouchTracker :=
  {| current_slot := slot; slots := slots t; start_captured := start_captured t;
     first_event_time := first_event_time t;
     min_fingers_for_start := min_fingers_for_start t |}.

Definition set_slots (t : MultiTouchTracker) (ss : list TouchSlot) : MultiTouchTracker :=
  {| current_slot := current_slot t; slots := ss; start_captured := start_captured t;
     first_event_time := first_event_time t;
     min_fingers_for_start := min_fingers_for_start t |}.

Definition set_start_captured (t : MultiTouchTracker) (b : bool) : MultiTouchTracker :=
  {| current_slot := current_slot t; slots := slots t; start_captured := b;
     first_event_time := first_event_time t;
     min_fingers_for_start := min_fingers_for_start t |}.

(** [mark_event] *)
Definition mark_event (now : Z) (t : MultiTouchTracker) : MultiTouchTracker :=
  match first_event_time t with
| None =>
      {| current_slot := current_slot t; slots := slots t;
         start_captured := start_captured t; first_event_time := Some now;
         min_fingers_for_start := min_fingers_for_start t |}
  | Some _ => t
  end.

(** The filter of [fingers_with_start] *)
Definition has_start (s : TouchSlot) : bool :=
  active s && bool_decide (is_Some (start_x s)) && bool_decide (is_Some (start_y s)).

(** [fingers_with_start] *)
Definition fingers_with_start (t : MultiTouchTracker) : nat :=
  length (List.filter has_start (slots t)).

(** [try_capture_start] *)
Definition try_capture_start (t : MultiTouchTracker) : MultiTouchTracker :=
  if start_captured t then t
  else
    let fingers_ready := fingers_with_start t in
    if Nat.leb (min_fingers_for_start t) fingers_ready
    then set_start_captured t true
    else t.

(** The loop of [average_movement]: totals are [i64]; at most [MAX_SLOTS]
    terms of [i32] size are added, so the [i64] sums never wrap. *)
Fixpoint average_movement_acc (ss : list TouchSlot) (total_dx total_dy count : Z)
    : Z * Z * Z :=
  match ss with
  | [] => (total_dx, total_dy, count)
  | slot :: rest =>
      if active slot then
        match start_x slot, start_y slot with
        | Some sx, Some sy =>
            average_movement_acc rest (total_dx + i32_sub (x slot) sx)
              (total_dy + i32_sub (y slot) sy) (count + 1)
        | _, _ => average_movement_acc rest total_dx total_dy count
        end
      else average_movement_acc rest total_dx total_dy count
  end.

(** [average_movement]: [i64] division truncates toward zero ([Z.quot]),
    then [as i32] *)
Definition average_movement (t : MultiTouchTracker) : Z * Z :=
  let '(total_dx, total_dy, count) := average_movement_acc (slots t) 0 0 0 in
  if count =? 0 then (0, 0)
  else (i32_wrap (Z.quot total_dx count), i32_wrap (Z.quot total_dy count)).

(** The loop of [max_movement_from_start] *)
Fixpoint max_movement_acc (ss : list TouchSlot) (max : Z) : Z :=
  match ss with
  | [] => max
  | slot :: rest =>
      if active slot then
        match start_x slot, start_y slot with
        | Some sx, Some sy =>
            let dx := i32_abs (i32_sub (x slot) sx) in
            let dy := i32_abs (i32_sub (y slot) sy) in
            max_movement_acc rest (Z.max (Z.max max dx) dy)
        | _, _ => max_movement_acc rest max
        end
      else max_movement_acc rest max
  end.

(** [max_movement_from_start] *)
Definition max_movement_from_start (t : MultiTouchTracker) : Z :=
  max_movement_acc (slots t) 0.

(** ** Swipe directions, states and events *)

Module SwipeDirection.
Inductive t := Up | Down | Left | Right.
End SwipeDirection.

Module GestureState.
Inductive t :=
| Idle
| FingersDown (start : Z) (tracker : MultiTouchTracker)
| PendingTrigger (pending_since : Z).
End GestureState.

Module GestureEvent.
Inductive t :=
| None
| FingersDown
| FingersUp
| TriggerCancelled
| SwipeDetected (dir : SwipeDirection.t).
End GestureEvent.

(** [calculate_swipe_direction_from_delta] *)
Definition calculate_swipe_direction_from_delta (dx dy : Z) : SwipeDirection.t :=
  if i32_abs dy <? i32_abs dx then
    (if 0 <? dx then SwipeDirection.Right else SwipeDirection.Left)
  else
    (if 0 <? dy then SwipeDirection.Down else SwipeDirection.Up).

(** The evdev event kinds the recognizer distinguishes *)
Inductive Key :=
| BTN_TOOL_TRIPLETAP
| BTN_TOOL_QUADTAP
| OtherKey (code : nat).

Inductive AbsoluteAxisType :=
| ABS_MT_SLOT
| ABS_MT_TRACKING_ID
| ABS_MT_POSITION_X
| ABS_MT_POSITION_Y
| ABS_X
| ABS_Y
| OtherAxis (code : nat).

Inductive InputEventKind :=
| KeyEv (key : Key)
| AbsAxis (axis : AbsoluteAxisType)
| OtherKind.

Record InputEvent := { kind : InputEventKind; value : Z }.

Global Instance Key_eq_dec : EqDecision Key.
Proof. solve_decision. Defined.

(** [Instant::elapsed], saturating at zero *)
Definition elapsed (since now : Z) : Z := Z.max 0 (now - since).

(** [PENDING_TRIGGER_DEBOUNCE] (milliseconds) *)
Definition PENDING_TRIGGER_DEBOUNCE : Z := 150.

(** [tap_key] and [cancel_key] of [process_event]; [finger_count] is a [u8] *)
Definition tap_key (finger_count : Z) : Key :=
  if finger_count =? 3 then BTN_TOOL_TRIPLETAP else BTN_TOOL_QUADTAP.

Definition cancel_key (finger_count : Z) : option Key :=
  if finger_count =? 3 then Some BTN_TOOL_QUADTAP else None.

(** [tracker.slots[i] = f(tracker.slots[i])]; [None] is the index panic *)
Definition update_slot (ss : list TouchSlot) (i : nat) (f : TouchSlot -> TouchSlot)
    : option (list TouchSlot) :=
  match ss !! i with
  | Some s => Some (<[i := f s]> ss)
| None => None
  end.

Definition set_active (b : bool) (s : TouchSlot) : TouchSlot :=
  {| active := b; x := x s; y := y s; start_x := start_x s; start_y := start_y s |}.

(** A position-X arm: start captured on the first X, current X, active *)
Definition record_x (val : Z) (s : TouchSlot) : TouchSlot :=
  {| active := true; x := val; y := y s;
     start_x := match start_x s with None => Some val | Some sx => Some sx end;
     start_y := start_y s |}.

Definition record_y (val : Z) (s : TouchSlot) : TouchSlot :=
  {| active := true; x := x s; y := val; start_x := start_x s;
     start_y := match start_y s with None => Some val | Some sy => Some sy end |}.

(** The tracker update of a position arm: slot written, [mark_event],
    [try_capture_start] *)
Definition record_position (now : Z) (t : MultiTouchTracker) (i : nat)
    (f : TouchSlot -> TouchSlot) : option MultiTouchTracker :=
  ss ← update_slot (slots t) i f;
  Some (try_capture_start (mark_event now (set_slots t ss))).

(** The tracker mutation of each [AbsAxis] arm of [process_event]; the
    boolean is [true] for the arms that go on to the early-swipe check. *)
Definition record_axis (axis : AbsoluteAxisType) (val now : Z) (t : MultiTouchTracker)
    : option (MultiTouchTracker * bool) :=
  match axis with
  | ABS_MT_SLOT =>
      let slot := usize_of_i32 val in
      if slot <? Z.of_nat MAX_SLOTS then Some (set_current_slot t (Z.to_nat slot), false)
      else Some (t, false)
  | ABS_MT_TRACKING_ID =>
      let slot := current_slot t in
      if Nat.ltb slot MAX_SLOTS then
        ss ← update_slot (slots t) slot (set_active (0 <=? val));
        Some (set_slots t ss, false)
      else Some (t, false)
  | ABS_MT_POSITION_X =>
      let slot := current_slot t in
      if Nat.ltb slot MAX_SLOTS then
        t' ← record_position now t slot (record_x val); Some (t', true)
      else Some (t, false)
  | ABS_MT_POSITION_Y =>
      let slot := current_slot t in
      if Nat.ltb slot MAX_SLOTS then
        t' ← record_position now t slot (record_y val); Some (t', true)
      else Some (t, false)
  | ABS_X => t' ← record_position now t 0 (record_x val); Some (t', true)
  | ABS_Y => t' ← record_position now t 0 (record_y val); Some (t', true)
  | OtherAxis _ => Some (t, false)
  end.

(** [check_early_swipe] *)
Definition check_early_swipe (t : MultiTouchTracker) (threshold : Z)
    : option SwipeDirection.t :=
  let '(avg_dx, avg_dy) := average_movement t in
  let movement := Z.max (i32_abs avg_dx) (i32_abs avg_dy) in
  if threshold <=? movement then Some (calculate_swipe_direction_from_delta avg_dx avg_dy)
  else None.

(** The [AbsAxis] arm of [process_event] in state [FingersDown] *)
Definition process_axis (axis : AbsoluteAxisType) (val now start : Z)
    (tracker : MultiTouchTracker) (swipe_threshold : Z)
    : option (GestureState.t * GestureEvent.t) :=
  '(tracker', check) ← record_axis axis val now tracker;
  if check && start_captured tracker' then
    match check_early_swipe tracker' swipe_threshold with
    | Some dir => Some (GestureState.Idle, GestureEvent.SwipeDetected dir)
    | None => Some (GestureState.FingersDown start tracker', GestureEvent.None)
    end
  else Some (GestureState.FingersDown start tracker', GestureEvent.None).

(** [process_event]: the new state and the returned event, or [None] when
    the Rust code would panic. *)
Definition process_event (event : InputEvent) (state : GestureState.t) (now : Z)
    (finger_count : Z) (tap_max_duration tap_max_movement swipe_threshold : Z)
    : option (GestureState.t * GestureEvent.t) :=
  match kind event with
  | KeyEv key =>
      if decide (key = tap_key finger_count) then
        if value event =? 1 then
          let min_fingers := Z.to_nat finger_count in
          Some (GestureState.FingersDown now (MultiTouchTracker_new min_fingers),
                GestureEvent.FingersDown)
        else if value event =? 0 then
          match state with
          | GestureState.FingersDown start tracker =>
              let duration := elapsed start now in
              let max_movement := max_movement_from_start tracker in
              if (duration <=? tap_max_duration) && (max_movement <=? tap_max_movement) then
                if finger_count =? 3 then
                  Some (GestureState.PendingTrigger now, GestureEvent.None)
                else Some (GestureState.Idle, GestureEvent.FingersUp)
              else
                let '(avg_dx, avg_dy) := average_movement tracker in
                let direction := calculate_swipe_direction_from_delta avg_dx avg_dy in
                Some (GestureState.Idle, GestureEvent.SwipeDetected direction)
          | _ => Some (state, GestureEvent.None)
          end
        else Some (state, GestureEvent.None)
      else if bool_decide (Some key = cancel_key finger_count) && (value event =? 1) then
        match state with
        | GestureState.PendingTrigger _ =>
            Some (GestureState.Idle, GestureEvent.TriggerCancelled)
        | _ => Some (state, GestureEvent.None)
        end
      else Some (state, GestureEvent.None)
  | AbsAxis axis =>
      match state with
      | GestureState.FingersDown start tracker =>
          process_axis axis (value event) now start tracker swipe_threshold
      | _ => Some (state, GestureEvent.None)
      end
  | OtherKind => Some (state, GestureEvent.None)
  end.

(** [check_pending_trigger]: the new state and whether the trigger fires *)
Definition check_pending_trigger (state : GestureState.t) (now : Z)
    : GestureState.t * bool :=
  match state with
  | GestureState.PendingTrigger pending_since =>
      if PENDING_TRIGGER_DEBOUNCE <=? elapsed pending_since now
      then (GestureState.Idle, true)
      else (state, false)
  | _ => (state, false)
  end.

(** The events of one device fed to [process_event] in arrival order, each
    with the time it is processed at *)
Fixpoint run_events (finger_count tap_max_duration tap_max_movement swipe_threshold : Z)
    (state : GestureState.t) (evs : list (InputEvent * Z))
    : option (GestureState.t * list GestureEvent.t) :=
  match evs with
  | [] => Some (state, [])
  | (ev, now) :: rest =>
      '(state', ge) ← process_event ev state now finger_count tap_max_duration
                        tap_max_movement swipe_threshold;
      '(state'', ges) ← run_events finger_count tap_max_duration tap_max_movement
                          swipe_threshold state' rest;
      Some (state'', ge :: ges)
  end.

Definition press (k : Key) : InputEvent := {| kind := KeyEv k; value := 1 |}.
Definition release (k : Key) : InputEvent := {| kind := KeyEv k; value := 0 |}.
Definition abs_ev (a : AbsoluteAxisType) (v : Z) : InputEvent :=
  {| kind := AbsAxis a; value := v |}.

(** A tracker built by [MultiTouchTracker::new] and updated by
    [process_event] has the [MAX_SLOTS] slots of its array type. *)
Definition state_wf (state : GestureState.t) : Prop :=
  match state with
  | GestureState.FingersDown _ tracker => length (slots tracker) = MAX_SLOTS
  | _ => True
  end.

(** An event whose slot index is out of range: an [ABS_MT_SLOT] value that
    is negative or [>= MAX_SLOTS], or a tracking-id or multitouch position
    event while the selected slot is out of range. *)
Definition slot_out_of_range (ev : InputEvent) (state : GestureState.t) : Prop :=
  (kind ev = AbsAxis ABS_MT_SLOT /\ (value ev < 0 \/ Z.of_nat MAX_SLOTS <= value ev)) \/
  ((kind ev = AbsAxis ABS_MT_TRACKING_ID \/ kind ev = AbsAxis ABS_MT_POSITION_X \/
    kind ev = AbsAxis ABS_MT_POSITION_Y) /\
   forall start tracker, state = GestureState.FingersDown start tracker ->
     (MAX_SLOTS <= current_slot tracker)%nat).

(** Following the spec's words: dominant axis by [|dx|] against [|dy|] on
    mathematical integers, ties to the vertical branch. *)
Definition spec_swipe_direction (dx dy : Z) : SwipeDirection.t :=
  if Z.abs dy <? Z.abs dx then
    (if 0 <? dx then SwipeDirection.Right else SwipeDirection.Left)
  else
    (if 0 <? dy then SwipeDirection.Down else SwipeDirection.Up).

(** Following the spec's words: the absolute deviations of one slot from its
    start position, for an active slot with both start coordinates. *)
Definition slot_deviations (s : TouchSlot) : list Z :=
  if active s then
    match start_x s, start_y s with
    | Some sx, Some sy => [Z.abs (x s - sx); Z.abs (y s - sy)]
    | _, _ => []
    end
  else [].

(** Following the spec's words: the maximum deviation over the slots, 0 if
    none. *)
Definition spec_max_movement (ss : list TouchSlot) : Z :=
  fold_right Z.max 0 (flat_map slot_deviations ss).

(** Three fingers whose X moves by [i32::MIN] before the start is captured;
    the start is captured by the last event, a position event in range. *)
Definition events_i32_min_average : list (InputEvent * Z) :=
  [(press BTN_TOOL_TRIPLETAP, 0);
   (abs_ev ABS_MT_SLOT 0, 1); (abs_ev ABS_MT_POSITION_X 0, 1);
   (abs_ev ABS_MT_POSITION_Y 0, 1); (abs_ev ABS_MT_POSITION_X (-2147483648), 1);
   (abs_ev ABS_MT_SLOT 1, 2); (abs_ev ABS_MT_POSITION_X 0, 2);
   (abs_ev ABS_MT_POSITION_Y 0, 2); (abs_ev ABS_MT_POSITION_X (-2147483648), 2);
   (abs_ev ABS_MT_SLOT 2, 3); (abs_ev ABS_MT_POSITION_X 0, 3);
   (abs_ev ABS_MT_POSITION_X (-2147483648), 3); (abs_ev ABS_MT_POSITION_Y 0, 3)].

(** One finger whose X moves from 100 to 900 before any Y is reported. *)
Definition events_x_only : list (InputEvent * Z) :=
  [(press BTN_TOOL_QUADTAP, 0);
   (abs_ev ABS_MT_POSITION_X 100, 1); (abs_ev ABS_MT_POSITION_X 900, 2)].

(** The movement of the tracked fingers, as the spec measures it (the exact
    deviation of every active slot with both start coordinates from its
    start, [spec_max_movement]), stays within [tap_max_movement] before and
    after each event of [evs], the tracker being updated as the [AbsAxis]
    arms of [process_event] update it. *)
Fixpoint tap_trajectory (tap_max_movement : Z) (tracker : MultiTouchTracker)
    (evs : list (InputEvent * Z)) : Prop :=
  spec_max_movement (slots tracker) <= tap_max_movement /\
  match evs with
  | [] => True
  | (ev, now) :: rest =>
      match kind ev with
      | AbsAxis axis =>
          match record_axis axis (value ev) now tracker with
          | Some (tracker', _) => tap_trajectory tap_max_movement tracker' rest
          | None => False
          end
      | _ => tap_trajectory tap_max_movement tracker rest
      end
  end.

(** Four fingers placed at (100,100), (110,100), (100,110), (110,110), then
    each moved right by 350, all before release. *)
Definition events_small_drift : list (InputEvent * Z) :=
  [(abs_ev ABS_MT_SLOT 0, 5); (abs_ev ABS_MT_TRACKING_ID 1, 5);
   (abs_ev ABS_MT_POSITION_X 100, 5); (abs_ev ABS_MT_POSITION_Y 100, 5);
   (abs_ev ABS_MT_SLOT 1, 6); (abs_ev ABS_MT_TRACKING_ID 2, 6);
   (abs_ev ABS_MT_POSITION_X 110, 6); (abs_ev ABS_MT_POSITION_Y 100, 6);
   (abs_ev ABS_MT_SLOT 2, 7); (abs_ev ABS_MT_TRACKING_ID 3, 7);
   (abs_ev ABS_MT_POSITION_X 100, 7); (abs_ev ABS_MT_POSITION_Y 110, 7);
   (abs_ev ABS_MT_SLOT 3, 10); (abs_ev ABS_MT_TRACKING_ID 4, 10);
   (abs_ev ABS_MT_POSITION_X 110, 10); (abs_ev ABS_MT_POSITION_Y 110, 10);
   (abs_ev ABS_MT_SLOT 0, 20); (abs_ev ABS_MT_POSITION_X 450, 20);
   (abs_ev ABS_MT_SLOT 1, 20); (abs_ev ABS_MT_POSITION_X 460, 20);
   (abs_ev ABS_MT_SLOT 2, 20); (abs_ev ABS_MT_POSITION_X 450, 20);
   (abs_ev ABS_MT_SLOT 3, 20); (abs_ev ABS_MT_POSITION_X 460, 20)].

(** The 4-finger tap of the spec's scenario: slots 0 to 3 at (100,100),
    (110,100), (100,110), (110,110), positions unchanged until release. *)
Definition events_four_finger_tap : list (InputEvent * Z) :=
  [(abs_ev ABS_MT_SLOT 0, 5); (abs_ev ABS_MT_TRACKING_ID 1, 5);
   (abs_ev ABS_MT_POSITION_X 100, 5); (abs_ev ABS_MT_POSITION_Y 100, 5);
   (abs_ev ABS_MT_SLOT 1, 6); (abs_ev ABS_MT_TRACKING_ID 2, 6);
   (abs_ev ABS_MT_POSITION_X 110, 6); (abs_ev ABS_MT_POSITION_Y 100, 6);
   (abs_ev ABS_MT_SLOT 2, 7); (abs_ev ABS_MT_TRACKING_ID 3, 7);
   (abs_ev ABS_MT_POSITION_X 100, 7); (abs_ev ABS_MT_POSITION_Y 110, 7);
   (abs_ev ABS_MT_SLOT 3, 10); (abs_ev ABS_MT_TRACKING_ID 4, 10);
   (abs_ev ABS_MT_POSITION_X 110, 10); (abs_ev ABS_MT_POSITION_Y 110, 10)].

(** ** Swipe actions and the configuration (src/config.rs) *)

Module SwipeAction.
Inductive t := None | AppLibrary | Launcher | Workspaces | PieMenu.
End SwipeAction.

Global Instance SwipeAction_eq_dec : EqDecision SwipeAction.t.
Proof. solve_decision. Defined.

(** [SwipeAction::command] *)
Definition command (a : SwipeAction.t) : option string :=
  match a with
  | SwipeAction.None => None
  | SwipeAction.AppLibrary => Some "cosmic-app-library"%string
  | SwipeAction.Launcher => Some "cosmic-launcher"%string
  | SwipeAction.Workspaces => Some "cosmic-workspaces"%string
  | SwipeAction.PieMenu => None
  end.

(** [SwipeAction::all] *)
Definition all : list SwipeAction.t :=
  [SwipeAction.None; SwipeAction.AppLibrary; SwipeAction.Launcher;
   SwipeAction.Workspaces; SwipeAction.PieMenu].

(** [PieMenuConfig]; [finger_count] is a [u8], [tap_duration_ms] a [u64] *)
Module PieMenuConfig.
Record t := {
  finger_count : Z;
  tap_duration_ms : Z;
  tap_movement : Z;
  swipe_threshold : Z;
  swipe_up : SwipeAction.t;
  swipe_down : SwipeAction.t;
  swipe_left : SwipeAction.t;
  swipe_right : SwipeAction.t;
  show_background : bool;
  icon_only_highlight : bool }.

(** [PieMenuConfig::default] *)
Definition default : t :=
  {| finger_count := 4; tap_duration_ms := 200; tap_movement := 500; swipe_threshold := 300;
     swipe_up := SwipeAction.Workspaces; swipe_down := SwipeAction.AppLibrary;
     swipe_left := SwipeAction.None; swipe_right := SwipeAction.None;
     show_background := true; icon_only_highlight := false |}.
End PieMenuConfig.

(** [GestureConfig]; [tap_max_duration] in milliseconds *)
Module GestureConfig.
Record t := {
  finger_count : Z;
  tap_max_duration : Z;
  tap_max_movement : Z;
  swipe_threshold : Z;
  swipe_up : SwipeAction.t;
  swipe_down : SwipeAction.t;
  swipe_left : SwipeAction.t;
  swipe_right : SwipeAction.t }.

(** [impl From<&PieMenuConfig> for GestureConfig] *)
Definition from (c : PieMenuConfig.t) : t :=
  {| finger_count := PieMenuConfig.finger_count c;
     tap_max_duration := PieMenuConfig.tap_duration_ms c;
     tap_max_movement := PieMenuConfig.tap_movement c;
     swipe_threshold := PieMenuConfig.swipe_threshold c;
     swipe_up := PieMenuConfig.swipe_up c;
     swipe_down := PieMenuConfig.swipe_down c;
     swipe_left := PieMenuConfig.swipe_left c;
     swipe_right := PieMenuConfig.swipe_right c |}.

(** [GestureConfig::default] *)
Definition default : t := from PieMenuConfig.default.
End GestureConfig.

Module WorkspaceLayout.
Inductive t := Horizontal | Vertical.
End WorkspaceLayout.

(** [str::contains] with a string pattern *)
Fixpoint contains (hay needle : string) : bool :=
  String.prefix needle hay ||
  match hay with
  | EmptyString => false
  | String _ rest => contains rest needle
  end.

(** [read_workspace_layout]; [content] is the text of COSMIC's workspace
    configuration file, [None] when the configuration directory is unknown
    or the file cannot be read (both return [WorkspaceLayout::default()]) *)
Definition read_workspace_layout (content : option string) : WorkspaceLayout.t :=
  match content with
  | None => WorkspaceLayout.Horizontal
  | Some c =>
      if contains c "Vertical"%string then WorkspaceLayout.Vertical
      else WorkspaceLayout.Horizontal
  end.

(** ** Settings conversions (src/settings.rs, src/settings_page.rs,
    src/settings_cli.rs) *)

(** [Iterator::position] *)
Fixpoint position {A} (p : A -> bool) (l : list A) : option nat :=
  match l with
  | [] => None
  | a :: l' => if p a then Some 0%nat else option_map S (position p l')
  end.

(** [swipe_action_to_index] (the same in settings.rs and settings_page.rs) *)
Definition swipe_action_to_index (action : SwipeAction.t) : nat :=
  match position (fun a => bool_decide (a = action)) all with
  | Some i => i
  | None => 0%nat
  end.

(** [index_to_swipe_action] (the same in settings.rs and settings_page.rs);
    [unwrap_or_default] gives [SwipeAction::None] *)
Definition index_to_swipe_action (index : nat) : SwipeAction.t :=
  match all !! index with
  | Some a => a
  | None => SwipeAction.None
  end.

Inductive Result (A E : Type) := Ok (a : A) | Err (e : E).
Arguments Ok {A E} a.
Arguments Err {A E} e.

(** [swipe_to_str] *)
Definition swipe_to_str (action : SwipeAction.t) : string :=
  match action with
  | SwipeAction.None => "None"
  | SwipeAction.AppLibrary => "AppLibrary"
  | SwipeAction.Launcher => "Launcher"
  | SwipeAction.Workspaces => "Workspaces"
  | SwipeAction.PieMenu => "PieMenu"
  end%string.

(** [str_to_swipe]: the arms of the [match] tried in order *)
Definition str_to_swipe (s : string) : Result SwipeAction.t string :=
  if String.eqb s "None" then Ok SwipeAction.None
  else if String.eqb s "AppLibrary" then Ok SwipeAction.AppLibrary
  else if String.eqb s "Launcher" then Ok SwipeAction.Launcher
  else if String.eqb s "Workspaces" then Ok SwipeAction.Workspaces
  else if String.eqb s "PieMenu" then Ok SwipeAction.PieMenu
  else Err (String.append "Unknown swipe action: " s).

(** ** The gesture loop (gesture_loop) *)

(** [GestureMessage] of src/applet.rs *)
Module GestureMessage.
Inductive t := ShowPieMenu | FingersDown | Reset.
End GestureMessage.

(** What the loop does to the outside world: a message sent to the applet
    on the channel, an attempt to spawn a program *)
Inductive Effect :=
| Send (m : GestureMessage.t)
| Spawn (program : string).

(** Whether [gesture_loop] goes on or returns *)
Inductive LoopFlow := Continue | Return.

(** [Some (action, direction)]: the overlay [action] was opened by a swipe
    in [direction] *)
Definition LastOpened : Type := option (SwipeAction.t * SwipeDirection.t).

(** [direction_allowed] *)
Definition direction_allowed (layout : WorkspaceLayout.t) (direction : SwipeDirection.t) : bool :=
  match layout, direction with
  | WorkspaceLayout.Horizontal, (SwipeDirection.Up | SwipeDirection.Down) => true
  | WorkspaceLayout.Vertical, (SwipeDirection.Left | SwipeDirection.Right) => true
  | _, _ => false
  end.

(** The configured action of a direction *)
Definition configured_action (cfg : GestureConfig.t) (direction : SwipeDirection.t)
    : SwipeAction.t :=
  match direction with
  | SwipeDirection.Up => GestureConfig.swipe_up cfg
  | SwipeDirection.Down => GestureConfig.swipe_down cfg
  | SwipeDirection.Left => GestureConfig.swipe_left cfg
  | SwipeDirection.Right => GestureConfig.swipe_right cfg
  end.

(** [Command::new(cmd).spawn()], and on failure [Command::new("/usr/bin/" +
    cmd).spawn()]; [can_spawn p] is whether spawning [p] succeeds. The
    attempts made and whether one succeeded. *)
Definition spawn_with_fallback (can_spawn : string -> bool) (cmd : string)
    : list Effect * bool :=
  if can_spawn cmd then ([Spawn cmd], true)
  else
    let full_path := String.append "/usr/bin/" cmd in
    ([Spawn cmd; Spawn full_path], can_spawn full_path).

(** The [SwipeDetected] arm after the [Reset] message: the layout filter,
    the choice between closing the open overlay and the configured action,
    and the action itself. [rx_alive] is whether [tx.send] succeeds. *)
Definition swipe_dispatch (cfg : GestureConfig.t) (layout : WorkspaceLayout.t)
    (can_spawn : string -> bool) (rx_alive : bool) (last_opened : LastOpened)
    (direction : SwipeDirection.t) : LastOpened * list Effect * LoopFlow :=
  if negb (direction_allowed layout direction) then (last_opened, [], Continue)
  else
    let '(action_to_run, is_closing) :=
      match last_opened with
      | Some (prev_action, _) => (prev_action, true)
      | None => (configured_action cfg direction, false)
      end in
    match action_to_run with
    | SwipeAction.None => (last_opened, [], Continue)
    | SwipeAction.PieMenu =>
        (None, [Send GestureMessage.ShowPieMenu], if rx_alive then Continue else Return)
    | _ =>
        match command action_to_run with
        | Some cmd =>
            let '(attempts, ok) := spawn_with_fallback can_spawn cmd in
            (if ok then (if is_closing then None else Some (action_to_run, direction))
             else last_opened, attempts, Continue)
        | None => (last_opened, [], Continue)
        end
    end.

(** The [match] on the result of [process_event] in [gesture_loop];
    [layout] is what [read_workspace_layout()] returns at that point *)
Definition dispatch (cfg : GestureConfig.t) (layout : WorkspaceLayout.t)
    (can_spawn : string -> bool) (rx_alive : bool) (last_opened : LastOpened)
    (ge : GestureEvent.t) : LastOpened * list Effect * LoopFlow :=
  match ge with
  | GestureEvent.FingersDown => (last_opened, [Send GestureMessage.FingersDown], Continue)
  | GestureEvent.FingersUp =>
      (last_opened, [Send GestureMessage.ShowPieMenu], if rx_alive then Continue else Return)
  | GestureEvent.TriggerCancelled => (last_opened, [Send GestureMessage.Reset], Continue)
  | GestureEvent.SwipeDetected direction =>
      let '(lo, effs, flow) :=
        swipe_dispatch cfg layout can_spawn rx_alive last_opened direction in
      (lo, Send GestureMessage.Reset :: effs, flow)
  | GestureEvent.None => (last_opened, [], Continue)
  end.

(** The [for event in events] loop of [gesture_loop] over the events fetched
    from the devices (the devices' batches one after the other), each with
    the time it is processed at; [None] is a panic of [process_event]. *)
Fixpoint handle_events (cfg : GestureConfig.t) (layout : WorkspaceLayout.t)
    (can_spawn : string -> bool) (rx_alive : bool) (state : GestureState.t)
    (last_opened : LastOpened) (evs : list (InputEvent * Z))
    : option (GestureState.t * LastOpened * list Effect * LoopFlow) :=
  match evs with
  | [] => Some (state, last_opened, [], Continue)
  | (ev, now) :: rest =>
      '(state', ge) ← process_event ev state now (GestureConfig.finger_count cfg)
                        (GestureConfig.tap_max_duration cfg)
                        (GestureConfig.tap_max_movement cfg)
                        (GestureConfig.swipe_threshold cfg);
      let '(lo, effs, flow) := dispatch cfg layout can_spawn rx_alive last_opened ge in
      match flow with
      | Return => Some (state', lo, effs, Return)
      | Continue =>
          '(state'', lo', effs', flow') ←
            handle_events cfg layout can_spawn rx_alive state' lo rest;
          Some (state'', lo', effs ++ effs', flow')
      end
  end.

(** One iteration of [gesture_loop] after the device (re)scan: the fetched
    events, then [check_pending_trigger] at time [now] *)
Definition loop_iteration (cfg : GestureConfig.t) (layout : WorkspaceLayout.t)
    (can_spawn : string -> bool) (rx_alive : bool) (state : GestureState.t)
    (last_opened : LastOpened) (evs : list (InputEvent * Z)) (now : Z)
    : option (GestureState.t * LastOpened * list Effect * LoopFlow) :=
  '(state', lo, effs, flow) ← handle_events cfg layout can_spawn rx_alive state last_opened evs;
  match flow with
  | Return => Some (state', lo, effs, Return)
  | Continue =>
      let '(state'', fire) := check_pending_trigger state' now in
      if fire then
        Some (state'', lo, effs ++ [Send GestureMessage.ShowPieMenu],
              if rx_alive then Continue else Return)
      else Some (state'', lo, effs, Continue)
  end.

(** The direction opposite to [d] *)
Definition opposite (d : SwipeDirection.t) : SwipeDirection.t :=
  match d with
  | SwipeDirection.Up => SwipeDirection.Down
  | SwipeDirection.Down => SwipeDirection.Up
  | SwipeDirection.Left => SwipeDirection.Right
  | SwipeDirection.Right => SwipeDirection.Left
  end.

(** From tracker [t] to tracker [t'] within one finger-down cycle: the
    start coordinates of each slot, the first event time and the start
    latch, once set, stay set to the same values; the slot count and the
    required finger count do not change. *)
Definition tracker_extends (t t' : MultiTouchTracker) : Prop :=
  (start_captured t = true -> start_captured t' = true) /\
  (forall v, first_event_time t = Some v -> first_event_time t' = Some v) /\
  min_fingers_for_start t' = min_fingers_for_start t /\
  length (slots t') = length (slots t) /\
  forall i s, slots t !! i = Some s ->
    exists s', slots t' !! i = Some s' /\
      (forall v, start_x s = Some v -> start_x s' = Some v) /\
      (forall v, start_y s = Some v -> start_y s' = Some v).

(** The selected slot of a tracking state is a valid index *)
Definition current_slot_ok (state : GestureState.t) : Prop :=
  match state with
  | GestureState.FingersDown _ tracker => (current_slot tracker < MAX_SLOTS)%nat
  | _ => True
  end.

(** A recorded overlay is one with a command to toggle it *)
Definition last_opened_ok (last_opened : LastOpened) : Prop :=
  match last_opened with
  | Some (action, _) => command action <> None
  | None => True
  end.

(** [dispatch] over a list of gesture events, stopping at a [Return] *)
Fixpoint dispatch_all (cfg : GestureConfig.t) (layout : WorkspaceLayout.t)
    (can_spawn : string -> bool) (rx_alive : bool) (last_opened : LastOpened)
    (ges : list GestureEvent.t) : LastOpened * list Effect * LoopFlow :=
  match ges with
  | [] => (last_opened, [], Continue)
  | ge :: rest =>
      let '(lo, effs, flow) := dispatch cfg layout can_spawn rx_alive last_opened ge in
      match flow with
      | Return => (lo, effs, Return)
      | Continue =>
          let '(lo', effs', flow') := dispatch_all cfg layout can_spawn rx_alive lo rest in
          (lo', effs ++ effs', flow')
      end
  end.

(** Four fingers placed at x = 100, 200, 300, 400 and y = 1000, then moved
    up by 400 one after the other, then lifted. *)
Definition events_swipe_up : list (InputEvent * Z) :=
  [(press BTN_TOOL_QUADTAP, 0);
   (abs_ev ABS_MT_SLOT 0, 5); (abs_ev ABS_MT_TRACKING_ID 1, 5);
   (abs_ev ABS_MT_POSITION_X 100, 5); (abs_ev ABS_MT_POSITION_Y 1000, 5);
   (abs_ev ABS_MT_SLOT 1, 6); (abs_ev ABS_MT_TRACKING_ID 2, 6);
   (abs_ev ABS_MT_POSITION_X 200, 6); (abs_ev ABS_MT_POSITION_Y 1000, 6);
   (abs_ev ABS_MT_SLOT 2, 7); (abs_ev ABS_MT_TRACKING_ID 3, 7);
   (abs_ev ABS_MT_POSITION_X 300, 7); (abs_ev ABS_MT_POSITION_Y 1000, 7);
   (abs_ev ABS_MT_SLOT 3, 8); (abs_ev ABS_MT_TRACKING_ID 4, 8);
   (abs_ev ABS_MT_POSITION_X 400, 8); (abs_ev ABS_MT_POSITION_Y 1000, 8);
   (abs_ev ABS_MT_SLOT 0, 20); (abs_ev ABS_MT_POSITION_Y 600, 20);
   (abs_ev ABS_MT_SLOT 1, 21); (abs_ev ABS_MT_POSITION_Y 600, 21);
   (abs_ev ABS_MT_SLOT 2, 22); (abs_ev ABS_MT_POSITION_Y 600, 22);
   (abs_ev ABS_MT_SLOT 3, 23); (abs_ev ABS_MT_POSITION_Y 600, 23);
   (release BTN_TOOL_QUADTAP, 40)].

(** The default configuration with a 3-finger tap *)
Definition three_finger_config : GestureConfig.t :=
  GestureConfig.from
    {| PieMenuConfig.finger_count := 3; PieMenuConfig.tap_duration_ms := 200;
       PieMenuConfig.tap_movement := 500; PieMenuConfig.swipe_threshold := 300;
       PieMenuConfig.swipe_up := SwipeAction.Workspaces;
       PieMenuConfig.swipe_down := SwipeAction.AppLibrary;
       PieMenuConfig.swipe_left := SwipeAction.None;
       PieMenuConfig.swipe_right := SwipeAction.None;
       PieMenuConfig.show_background := true;
       PieMenuConfig.icon_only_highlight := false |}.

(** * Properties *)

(** ** Finger-up on the configured key *)

(** C1: a release of the configured key in [FingersDown] that qualifies as a
    tap ([elapsed <= tap_max_duration] and [max_movement_from_start <=
    tap_max_movement]) goes to [PendingTrigger now] and returns [None] with
    3 fingers, and goes to [Idle] and returns [FingersUp] with 4 fingers. *)
Theorem tap_release_outcome (start now : Z) (tracker : MultiTouchTracker)
    (finger_count tap_max_duration tap_max_movement swipe_threshold : Z)
    (Hduration : elapsed start now <= tap_max_duration)
    (Hmovement : max_movement_from_start tracker <= tap_max_movement) :
  (finger_count = 3 ->
   process_event (release (tap_key finger_count)) (GestureState.FingersDown start tracker)
     now finger_count tap_max_duration tap_max_movement swipe_threshold
   = Some (GestureState.PendingTrigger now, GestureEvent.None)) /\
  (finger_count = 4 ->
   process_event (release (tap_key finger_count)) (GestureState.FingersDown start tracker)
     now finger_count tap_max_duration tap_max_movement swipe_threshold
   = Some (GestureState.Idle, GestureEvent.FingersUp)).
Proof.
  apply Z.leb_le in Hduration. apply Z.leb_le in Hmovement.
  split; intros ->; unfold process_event; cbn [kind value release];
    rewrite decide_True by reflexivity; cbn; rewrite Hduration, Hmovement; reflexivity.
Qed.

(** C2: a release of the configured key in [FingersDown] that does not
    qualify as a tap goes to [Idle] and returns [SwipeDetected d], [d] the
    classification of [average_movement]; it does not return [FingersUp]. *)
Theorem swipe_release_outcome (start now : Z) (tracker : MultiTouchTracker)
    (finger_count tap_max_duration tap_max_movement swipe_threshold : Z)
    (Hnot_tap : ~ (elapsed start now <= tap_max_duration /\
                   max_movement_from_start tracker <= tap_max_movement)) :
  let '(avg_dx, avg_dy) := average_movement tracker in
  process_event (release (tap_key finger_count)) (GestureState.FingersDown start tracker)
    now finger_count tap_max_duration tap_max_movement swipe_threshold
  = Some (GestureState.Idle,
          GestureEvent.SwipeDetected (calculate_swipe_direction_from_delta avg_dx avg_dy)) /\
  process_event (release (tap_key finger_count)) (GestureState.FingersDown start tracker)
    now finger_count tap_max_duration tap_max_movement swipe_threshold
  <> Some (GestureState.Idle, GestureEvent.FingersUp).
Proof.
  assert (Hb : (elapsed start now <=? tap_max_duration) &&
               (max_movement_from_start tracker <=? tap_max_movement) = false).
  { destruct (elapsed start now <=? tap_max_duration) eqn:E1,
      (max_movement_from_start tracker <=? tap_max_movement) eqn:E2; try reflexivity.
    apply Z.leb_le in E1, E2. tauto. }
  destruct (average_movement tracker) as [avg_dx avg_dy] eqn:Havg.
  unfold process_event; cbn [kind value release].
  rewrite decide_True by reflexivity; cbn -[elapsed max_movement_from_start average_movement].
  rewrite Hb, Havg. split; [reflexivity | discriminate].
Qed.

(** ** Finger-down on the configured key *)

(** C10: from any state, a press of the configured key goes to
    [FingersDown now] with a fresh tracker requiring [finger_count] fingers
    and returns [FingersDown]; from [PendingTrigger] the pending tap is
    dropped: the result is neither [FingersUp] nor [TriggerCancelled], and
    the time check no longer fires. *)
Theorem press_starts_fresh_cycle (state : GestureState.t) (now : Z)
    (finger_count tap_max_duration tap_max_movement swipe_threshold : Z) :
  process_event (press (tap_key finger_count)) state now finger_count
    tap_max_duration tap_max_movement swipe_threshold
  = Some (GestureState.FingersDown now (MultiTouchTracker_new (Z.to_nat finger_count)),
          GestureEvent.FingersDown) /\
  (forall later : Z,
     check_pending_trigger
       (GestureState.FingersDown now (MultiTouchTracker_new (Z.to_nat finger_count))) later
     = (GestureState.FingersDown now (MultiTouchTracker_new (Z.to_nat finger_count)), false)).
Proof.
  split; [|reflexivity].
  unfold process_event; cbn [kind value press].
  rewrite decide_True by reflexivity. reflexivity.
Qed.

(** ** The 3-finger debounce *)

Lemma process_event_3_never_fingers_up (ev : InputEvent) (state state' : GestureState.t)
    (now tap_max_duration tap_max_movement swipe_threshold : Z) (ge : GestureEvent.t) :
  process_event ev state now 3 tap_max_duration tap_max_movement swipe_threshold
    = Some (state', ge) ->
  ge <> GestureEvent.FingersUp.
Proof.
  unfold process_event.
  destruct (kind ev) as [key|axis|]; cbn [tap_key cancel_key Z.eqb Pos.eqb].
  - destruct (decide _).
    + destruct (value ev =? 1); [intros [= _ <-]; discriminate|].
      destruct (value ev =? 0); [|intros [= _ <-]; discriminate].
      destruct state as [|start tracker|p]; [intros [= _ <-]; discriminate| |
                                             intros [= _ <-]; discriminate].
      destruct (_ && _).
      * intros [= _ <-]; discriminate.
      * destruct (average_movement tracker). intros [= _ <-]; discriminate.
    + destruct (_ && _); [destruct state|]; intros [= _ <-]; discriminate.
  - destruct state as [|start tracker|p]; [intros [= _ <-]; discriminate| |
                                           intros [= _ <-]; discriminate].
    unfold process_axis.
    destruct (record_axis axis (value ev) now tracker) as [[tr' chk]|]; cbn; [|discriminate].
    destruct (chk && start_captured tr'); [destruct (check_early_swipe tr' swipe_threshold)|];
      intros [= _ <-]; discriminate.
  - intros [= _ <-]; discriminate.
Qed.

(** C4: in 3-finger mode, a 4-finger press in [PendingTrigger] goes to
    [Idle] and returns [TriggerCancelled]; [process_event] never returns
    [FingersUp] in 3-finger mode; the once-per-iteration time check fires
    (and resets to [Idle]) on [PendingTrigger pending_since] exactly when
    [now - pending_since >= 150] ms, and never on another state, so after a
    cancellation nothing fires for that cycle. *)
Theorem three_finger_debounce (pending_since : Z)
    (tap_max_duration tap_max_movement swipe_threshold : Z) :
  (forall now : Z,
     process_event (press BTN_TOOL_QUADTAP) (GestureState.PendingTrigger pending_since)
       now 3 tap_max_duration tap_max_movement swipe_threshold
     = Some (GestureState.Idle, GestureEvent.TriggerCancelled)) /\
  (forall (ev : InputEvent) (state state' : GestureState.t) (now : Z) (ge : GestureEvent.t),
     process_event ev state now 3 tap_max_duration tap_max_movement swipe_threshold
       = Some (state', ge) ->
     ge <> GestureEvent.FingersUp) /\
  (forall now : Z,
     check_pending_trigger (GestureState.PendingTrigger pending_since) now
     = if PENDING_TRIGGER_DEBOUNCE <=? now - pending_since
       then (GestureState.Idle, true)
       else (GestureState.PendingTrigger pending_since, false)) /\
  (forall (state : GestureState.t) (now : Z),
     (forall p, state <> GestureState.PendingTrigger p) ->
     check_pending_trigger state now = (state, false)).
Proof.
  split; [|split; [|split]].
  - intros now. reflexivity.
  - intros ev state state' now ge. apply process_event_3_never_fingers_up.
  - intros now. unfold check_pending_trigger, elapsed, PENDING_TRIGGER_DEBOUNCE.
    destruct (150 <=? now - pending_since) eqn:E.
    + apply Z.leb_le in E. rewrite Z.max_r by lia. rewrite (proj2 (Z.leb_le _ _) E).
      reflexivity.
    + apply Z.leb_gt in E. destruct (150 <=? Z.max 0 (now - pending_since)) eqn:E2;
        [apply Z.leb_le in E2; lia | reflexivity].
  - intros state now Hnot. destruct state as [| |p]; try reflexivity.
    exfalso. exact (Hnot p eq_refl).
Qed.

(** ** Start capture *)

(** C9: on a tracker without a captured start, [try_capture_start] sets
    [start_captured] to [min_fingers_for_start <= fingers_with_start] and
    changes nothing else; once [start_captured] is set, any number of calls
    leave the whole tracker unchanged. *)
Theorem try_capture_start_latch (t : MultiTouchTracker) :
  (start_captured t = false ->
   try_capture_start t
   = set_start_captured t (Nat.leb (min_fingers_for_start t) (fingers_with_start t))) /\
  (start_captured t = true -> forall n : nat, Nat.iter n try_capture_start t = t).
Proof.
  split.
  - intros H. unfold try_capture_start. rewrite H.
    destruct (Nat.leb _ _); [reflexivity|].
    destruct t; cbn in *; subst; reflexivity.
  - intros H n. induction n as [|n IH]; [reflexivity|].
    change (try_capture_start (Nat.iter n try_capture_start t) = t).
    rewrite IH. unfold try_capture_start. rewrite H. reflexivity.
Qed.

(** ** Slot indices *)

Lemma slots_try_capture_start (t : MultiTouchTracker) :
  slots (try_capture_start t) = slots t.
Proof. unfold try_capture_start. destruct (start_captured t); [|destruct (Nat.leb _ _)]; reflexivity. Qed.

Lemma slots_mark_event (now : Z) (t : MultiTouchTracker) :
  slots (mark_event now t) = slots t.
Proof. unfold mark_event. destruct (first_event_time t); reflexivity. Qed.

Lemma update_slot_ok (ss : list TouchSlot) (i : nat) (f : TouchSlot -> TouchSlot) :
  (i < length ss)%nat ->
  exists ss', update_slot ss i f = Some ss' /\ length ss' = length ss.
Proof.
  intros Hi. unfold update_slot.
  destruct (ss !! i) as [s|] eqn:E.
  - eexists; split; [reflexivity|]. apply length_insert.
  - apply lookup_ge_None in E. lia.
Qed.

Lemma record_position_ok (now : Z) (t : MultiTouchTracker) (i : nat)
    (f : TouchSlot -> TouchSlot) :
  (i < length (slots t))%nat ->
  exists t', record_position now t i f = Some t' /\ length (slots t') = length (slots t).
Proof.
  intros Hi. destruct (update_slot_ok (slots t) i f Hi) as [ss [E L]].
  unfold record_position. rewrite E. cbn. eexists; split; [reflexivity|].
  rewrite slots_try_capture_start, slots_mark_event. exact L.
Qed.

Lemma record_axis_ok (axis : AbsoluteAxisType) (val now : Z) (t : MultiTouchTracker) :
  length (slots t) = MAX_SLOTS ->
  exists t' chk, record_axis axis val now t = Some (t', chk) /\
                 length (slots t') = MAX_SLOTS.
Proof.
  intros L. destruct axis; cbn [record_axis].
  - destruct (_ <? _); eauto.
  - destruct (Nat.ltb _ _) eqn:E; [|eauto].
    apply Nat.ltb_lt in E.
    destruct (update_slot_ok (slots t) (current_slot t) (set_active (0 <=? val)))
      as [ss [-> Lss]]; [lia|].
    cbn. exists (set_slots t ss), false. split; [reflexivity|cbn; lia].
  - destruct (Nat.ltb _ _) eqn:E; [|eauto].
    apply Nat.ltb_lt in E.
    destruct (record_position_ok now t (current_slot t) (record_x val)) as [t' [-> L']];
      [lia|]. cbn. exists t', true. split; [reflexivity|lia].
  - destruct (Nat.ltb _ _) eqn:E; [|eauto].
    apply Nat.ltb_lt in E.
    destruct (record_position_ok now t (current_slot t) (record_y val)) as [t' [-> L']];
      [lia|]. cbn. exists t', true. split; [reflexivity|lia].
  - destruct (record_position_ok now t 0 (record_x val)) as [t' [-> L']];
      [rewrite L; unfold MAX_SLOTS; lia|]. cbn. exists t', true. split; [reflexivity|lia].
  - destruct (record_position_ok now t 0 (record_y val)) as [t' [-> L']];
      [rewrite L; unfold MAX_SLOTS; lia|]. cbn. exists t', true. split; [reflexivity|lia].
  - eauto.
Qed.

(** [process_event] never panics on a well-formed state and keeps it
    well formed. *)
Lemma process_event_total (ev : InputEvent) (state : GestureState.t)
    (now finger_count tap_max_duration tap_max_movement swipe_threshold : Z) :
  state_wf state ->
  exists state' ge,
    process_event ev state now finger_count tap_max_duration tap_max_movement
      swipe_threshold = Some (state', ge) /\ state_wf state'.
Proof.
  intros Hwf. unfold process_event.
  destruct (kind ev) as [key|axis|].
  - destruct (decide _).
    + destruct (value ev =? 1).
      { do 2 eexists; split; [reflexivity|]. reflexivity. }
      destruct (value ev =? 0); [|eauto].
      destruct state as [|start tracker|p]; eauto.
      destruct (_ && _); [destruct (finger_count =? 3)|destruct (average_movement tracker)];
        do 2 eexists; (split; [reflexivity|exact I]).
    + destruct (_ && _); [destruct state|]; do 2 eexists; (split; [reflexivity|]);
        cbn in *; auto.
  - destruct state as [|start tracker|p]; eauto.
    cbn in Hwf. unfold process_axis.
    destruct (record_axis_ok axis (value ev) now tracker Hwf) as [t' [chk [-> L']]].
    cbn. destruct (chk && start_captured t');
      [destruct (check_early_swipe t' swipe_threshold)|];
      do 2 eexists; (split; [reflexivity|]); cbn; auto.
  - eauto.
Qed.

(** C8: an event with an out-of-range slot index (an [ABS_MT_SLOT] value
    that is negative or [>= 10], or a tracking-id/position event while the
    selected slot is out of range) is dropped: [process_event] does not
    panic, leaves the state unchanged and returns [None]; and no event
    makes [process_event] index the slot array out of bounds. *)
Theorem out_of_range_slot_dropped (ev : InputEvent) (state : GestureState.t)
    (now finger_count tap_max_duration tap_max_movement swipe_threshold : Z)
    (Hi32 : - 2 ^ 31 <= value ev < 2 ^ 31)
    (Hoor : slot_out_of_range ev state) :
  process_event ev state now finger_count tap_max_duration tap_max_movement
    swipe_threshold = Some (state, GestureEvent.None) /\
  (state_wf state ->
   forall ev' : InputEvent,
     is_Some (process_event ev' state now finger_count tap_max_duration
                tap_max_movement swipe_threshold)).
Proof.
  split.
  2:{ intros Hwf ev'.
      destruct (process_event_total ev' state now finger_count tap_max_duration
                  tap_max_movement swipe_threshold Hwf) as [s' [ge [-> _]]].
      eexists; reflexivity. }
  unfold process_event.
  destruct Hoor as [[Hk Hv] | [Hk Hslot]].
  - rewrite Hk. destruct state as [|start tracker|p]; try reflexivity.
    unfold process_axis. cbn [record_axis].
    replace (usize_of_i32 (value ev) <? Z.of_nat MAX_SLOTS) with false.
    + reflexivity.
    + symmetry. apply Z.ltb_ge. unfold usize_of_i32, MAX_SLOTS in *.
      destruct (value ev <? 0) eqn:E; [|apply Z.ltb_ge in E]; lia.
  - destruct state as [|start tracker|p];
      [destruct Hk as [Hk|[Hk|Hk]]; rewrite Hk; reflexivity| |
       destruct Hk as [Hk|[Hk|Hk]]; rewrite Hk; reflexivity].
    specialize (Hslot start tracker eq_refl).
    assert (Hlt : Nat.ltb (current_slot tracker) MAX_SLOTS = false)
      by (apply Nat.ltb_ge; exact Hslot).
    destruct Hk as [Hk|[Hk|Hk]]; rewrite Hk; unfold process_axis; cbn [record_axis];
      rewrite Hlt; reflexivity.
Qed.

(** ** Machine-integer facts *)

Lemma i32_wrap_small (z : Z) : - 2 ^ 31 <= z < 2 ^ 31 -> i32_wrap z = z.
Proof.
  intros H. unfold i32_wrap. rewrite Z.mod_small by lia. lia.
Qed.

Lemma i32_abs_sub_exact (a b : Z) :
  Z.abs (a - b) < 2 ^ 31 -> i32_abs (i32_sub a b) = Z.abs (a - b).
Proof.
  intros H. unfold i32_abs, i32_sub.
  rewrite (i32_wrap_small (a - b)) by lia. apply i32_wrap_small. lia.
Qed.

(** ** Swipe direction *)

(** C5 (the code at [i32::MIN]): [(-2^31).abs()] wraps to [-2^31], so
    [(i32::MIN, 0)] is classified [Up] although [|dx| > |dy|], while
    [(-2^30, 0)], which scales to it by 2, is classified [Left]. *)
Theorem swipe_direction_at_i32_min :
  calculate_swipe_direction_from_delta (-2147483648) 0 = SwipeDirection.Up /\
  spec_swipe_direction (-2147483648) 0 = SwipeDirection.Left /\
  calculate_swipe_direction_from_delta (-1073741824) 0 = SwipeDirection.Left.
Proof. split; [|split]; reflexivity. Qed.

(** Away from [i32::MIN] the classifier is the spec's rule. *)
Lemma swipe_direction_off_i32_min (dx dy : Z) :
  - 2 ^ 31 < dx < 2 ^ 31 -> - 2 ^ 31 < dy < 2 ^ 31 ->
  calculate_swipe_direction_from_delta dx dy = spec_swipe_direction dx dy.
Proof.
  intros Hx Hy. unfold calculate_swipe_direction_from_delta, spec_swipe_direction, i32_abs.
  rewrite (i32_wrap_small (Z.abs dx)), (i32_wrap_small (Z.abs dy)) by lia.
  reflexivity.
Qed.

(** The spec's rule is invariant under positive scaling. *)
Lemma spec_swipe_direction_scale (k dx dy : Z) :
  0 < k -> spec_swipe_direction (k * dx) (k * dy) = spec_swipe_direction dx dy.
Proof.
  intros Hk. unfold spec_swipe_direction.
  rewrite !Z.abs_mul, (Z.abs_eq k) by lia.
  destruct (Z.abs dy <? Z.abs dx) eqn:E1;
    [apply Z.ltb_lt in E1 | apply Z.ltb_ge in E1].
  - rewrite (proj2 (Z.ltb_lt _ _)) by nia.
    destruct (0 <? dx) eqn:E2; [apply Z.ltb_lt in E2 | apply Z.ltb_ge in E2].
    + rewrite (proj2 (Z.ltb_lt _ _)) by nia. reflexivity.
    + rewrite (proj2 (Z.ltb_ge _ _)) by nia. reflexivity.
  - rewrite (proj2 (Z.ltb_ge _ _)) by nia.
    destruct (0 <? dy) eqn:E2; [apply Z.ltb_lt in E2 | apply Z.ltb_ge in E2].
    + rewrite (proj2 (Z.ltb_lt _ _)) by nia. reflexivity.
    + rewrite (proj2 (Z.ltb_ge _ _)) by nia. reflexivity.
Qed.

(** ** Early swipe *)

(** C3 (the code at an average of [i32::MIN]): after the last event of
    [events_i32_min_average] the start is captured and the average movement
    is [(i32::MIN, 0)], of magnitude [2^31 >= 300]; [avg_dx.abs()] wraps,
    [check_early_swipe] sees a movement of 0, and no [SwipeDetected] is
    returned: the state stays [FingersDown]. *)
Theorem early_swipe_missed_at_i32_min :
  match run_events 3 200 500 300 GestureState.Idle events_i32_min_average with
  | Some (GestureState.FingersDown _ tracker, outs) =>
      start_captured tracker = true /\
      average_movement tracker = (-2147483648, 0) /\
      300 <= Z.max (Z.abs (-2147483648)) (Z.abs 0) /\
      outs = GestureEvent.FingersDown :: repeat GestureEvent.None 12
  | _ => False
  end.
Proof. vm_compute. repeat split; discriminate. Qed.

(** ** Maximum movement *)

(** C7 (counterexample): after [events_x_only], slot 0 is active with
    [start_x = 100] and [x = 900] but no start Y, and
    [max_movement_from_start] is 0, below [|900 - 100|]. And where a
    deviation reaches [2^31] the [i32] arithmetic wraps: a slot at
    [x = i32::MAX] started at [i32::MIN] counts as a movement of 1, not
    [2^32 - 1]. *)
Lemma max_movement_ignores_x_only_slot :
  match run_events 4 200 500 300 GestureState.Idle events_x_only with
  | Some (GestureState.FingersDown _ tracker, _) =>
      slots tracker !! 0%nat
        = Some {| active := true; x := 900; y := 0; start_x := Some 100; start_y := None |} /\
      max_movement_from_start tracker < Z.abs (900 - 100)
  | _ => False
  end /\
  let wrapped :=
    {| current_slot := 0;
       slots := [{| active := true; x := 2147483647; y := 0;
                    start_x := Some (-2147483648); start_y := Some 0 |}];
       start_captured := true; first_event_time := Some 0; min_fingers_for_start := 1 |} in
  max_movement_from_start wrapped = 1 /\
  spec_max_movement (slots wrapped) = 2 ^ 32 - 1.
Proof. split; [vm_compute; split; reflexivity | split; reflexivity]. Qed.

Lemma max_movement_acc_spec (ss : list TouchSlot) (m : Z) :
  0 <= m ->
  Forall (fun s => Forall (fun d => d < 2 ^ 31) (slot_deviations s)) ss ->
  max_movement_acc ss m = Z.max m (spec_max_movement ss).
Proof.
  revert m. induction ss as [|s rest IH]; intros m Hm Hfit.
  - cbn. lia.
  - inversion Hfit as [|? ? Hs Hrest]; subst.
    unfold spec_max_movement. cbn [flat_map]. rewrite fold_right_app.
    fold (spec_max_movement rest).
    cbn [max_movement_acc]. unfold slot_deviations in *.
    destruct (active s); [|apply IH; assumption].
    destruct (start_x s) as [sx|], (start_y s) as [sy|]; try (apply IH; assumption).
    inversion Hs as [|? ? Hdx Hdy']; inversion Hdy' as [|? ? Hdy _]; subst.
    rewrite (i32_abs_sub_exact (x s) sx), (i32_abs_sub_exact (y s) sy)
      by (pose proof (Z.abs_nonneg (x s - sx)); pose proof (Z.abs_nonneg (y s - sy)); lia).
    rewrite IH by (try assumption; lia). cbn [fold_right]. lia.
Qed.

(** C7 (amended): when every deviation [|x - start_x|], [|y - start_y|] of
    an active slot with both start coordinates is below [2^31] (so that no
    [i32] subtraction or [abs] wraps), [max_movement_from_start] is the
    maximum, over the active slots whose
    start X and start Y are both set, of [|x - start_x|] and
    [|y - start_y|], and 0 when there is no such slot. *)
Theorem max_movement_from_start_spec (t : MultiTouchTracker)
    (Hfit : Forall (fun s => Forall (fun d => d < 2 ^ 31) (slot_deviations s)) (slots t)) :
  max_movement_from_start t = spec_max_movement (slots t).
Proof.
  unfold max_movement_from_start. rewrite max_movement_acc_spec by (lia || assumption).
  assert (0 <= spec_max_movement (slots t)).
  { unfold spec_max_movement. induction (flat_map slot_deviations (slots t)); cbn; lia. }
  lia.
Qed.

(** ** Movement within a bound *)

Lemma spec_max_movement_nonneg (ss : list TouchSlot) : 0 <= spec_max_movement ss.
Proof.
  unfold spec_max_movement. induction (flat_map slot_deviations ss); cbn; lia.
Qed.

Lemma fold_max_le (l : list Z) (a m : Z) :
  fold_right Z.max a l <= m -> a <= m /\ Forall (fun d => d <= m) l.
Proof.
  induction l as [|d l IH]; cbn; intros H; [split; [lia | constructor]|].
  destruct (IH ltac:(lia)) as [Ha Hl]. split; [exact Ha | constructor; [lia | exact Hl]].
Qed.

Lemma spec_max_movement_le (ss : list TouchSlot) (m : Z) :
  spec_max_movement ss <= m ->
  Forall (fun s => Forall (fun d => d <= m) (slot_deviations s)) ss.
Proof.
  unfold spec_max_movement. induction ss as [|s rest IH]; intros H; constructor;
    cbn [flat_map] in H; rewrite fold_right_app in H;
    destruct (fold_max_le _ _ _ H) as [Hrest Hs].
  - exact Hs.
  - exact (IH Hrest).
Qed.

(** When every deviation is at most [m < 2^31], the [i32] differences
    summed by [average_movement] are exact and their totals are bounded by
    [count * m]. *)
Lemma average_movement_acc_bound (m : Z) (ss : list TouchSlot) :
  0 <= m < 2 ^ 31 ->
  Forall (fun s => Forall (fun d => d <= m) (slot_deviations s)) ss ->
  forall tdx tdy c TDX TDY C,
    0 <= c -> Z.abs tdx <= c * m -> Z.abs tdy <= c * m ->
    average_movement_acc ss tdx tdy c = (TDX, TDY, C) ->
    0 <= C /\ Z.abs TDX <= C * m /\ Z.abs TDY <= C * m.
Proof.
  intros Hm. induction ss as [|s rest IH]; intros Hall tdx tdy c TDX TDY C Hc Hx Hy Hacc.
  - cbn in Hacc. injection Hacc as <- <- <-. lia.
  - inversion Hall as [|? ? Hs Hrest]; subst.
    cbn [average_movement_acc] in Hacc. unfold slot_deviations in Hs.
    destruct (active s); [|exact (IH Hrest tdx tdy c TDX TDY C Hc Hx Hy Hacc)].
    destruct (start_x s) as [sx|], (start_y s) as [sy|];
      try exact (IH Hrest tdx tdy c TDX TDY C Hc Hx Hy Hacc).
    inversion Hs as [|? ? Hdx Hdy']; inversion Hdy' as [|? ? Hdy _]; subst.
    unfold i32_sub in Hacc.
    rewrite (i32_wrap_small (x s - sx)), (i32_wrap_small (y s - sy)) in Hacc by lia.
    eapply IH; [exact Hrest | | | | exact Hacc]; lia.
Qed.

(** The early-swipe check does not fire while every deviation stays at
    most [m], below the threshold. *)
Lemma check_early_swipe_within (t : MultiTouchTracker) (m threshold : Z) :
  spec_max_movement (slots t) <= m -> m < threshold -> threshold < 2 ^ 31 ->
  check_early_swipe t threshold = None.
Proof.
  intros Hdev Hlt Hth. pose proof (spec_max_movement_nonneg (slots t)) as H0.
  pose proof (spec_max_movement_le _ _ Hdev) as Hall.
  unfold check_early_swipe, average_movement.
  destruct (average_movement_acc (slots t) 0 0 0) as [[TDX TDY] C] eqn:Hacc.
  destruct (average_movement_acc_bound m (slots t) ltac:(lia) Hall 0 0 0 TDX TDY C)
    as (HC & Hx & Hy); try lia; [exact Hacc|].
  destruct (C =? 0) eqn:E.
  - unfold i32_abs. rewrite Z.abs_0, i32_wrap_small by lia.
    destruct (threshold <=? _) eqn:E'; [apply Z.leb_le in E'; lia | reflexivity].
  - apply Z.eqb_neq in E.
    assert (Hq : forall a, Z.abs a <= C * m -> Z.abs (Z.quot a C) <= m).
    { intros a Ha. rewrite <- Z.quot_abs by lia. rewrite (Z.abs_eq C) by lia.
      apply Z.quot_le_upper_bound; lia. }
    pose proof (Hq TDX Hx). pose proof (Hq TDY Hy).
    unfold i32_abs. rewrite (i32_wrap_small (Z.quot TDX C)), (i32_wrap_small (Z.quot TDY C)) by lia.
    rewrite !i32_wrap_small by lia.
    destruct (threshold <=? _) eqn:E'; [apply Z.leb_le in E'; lia | reflexivity].
Qed.

(** While every deviation stays at most [m < 2^31],
    [max_movement_from_start] is the exact maximum deviation. *)
Lemma max_movement_within (t : MultiTouchTracker) (m : Z) :
  spec_max_movement (slots t) <= m -> m < 2 ^ 31 ->
  max_movement_from_start t = spec_max_movement (slots t).
Proof.
  intros Hdev Hm. pose proof (spec_max_movement_nonneg (slots t)).
  unfold max_movement_from_start. rewrite max_movement_acc_spec; [lia | lia |].
  eapply Forall_impl; [exact (spec_max_movement_le _ _ Hdev)|].
  intros s Hs. eapply Forall_impl; [exact Hs|]. cbn. lia.
Qed.

(** ** A 4-finger tap *)

Lemma tap_run_from_fingers_down (tap_max_duration tap_max_movement swipe_threshold : Z)
    (t0 t1 : Z) (evs : list (InputEvent * Z)) :
  tap_max_movement < swipe_threshold ->
  swipe_threshold < 2 ^ 31 ->
  elapsed t0 t1 <= tap_max_duration ->
  Forall (fun e => kind (fst e) <> KeyEv BTN_TOOL_QUADTAP) evs ->
  forall tracker : MultiTouchTracker,
    length (slots tracker) = MAX_SLOTS ->
    tap_trajectory tap_max_movement tracker evs ->
    run_events 4 tap_max_duration tap_max_movement swipe_threshold
      (GestureState.FingersDown t0 tracker) (evs ++ [(release BTN_TOOL_QUADTAP, t1)])
    = Some (GestureState.Idle, repeat GestureEvent.None (length evs) ++ [GestureEvent.FingersUp]).
Proof.
  intros Hthr Hi32 Hdur Hevs.
  induction Hevs as [|[ev now] evs Hkey Hevs IH]; intros tracker Hlen Htraj.
  - destruct Htraj as [Hdev _].
    assert (Hmov : max_movement_from_start tracker <= tap_max_movement)
      by (rewrite (max_movement_within tracker tap_max_movement Hdev) by lia; exact Hdev).
    apply Z.leb_le in Hdur. apply Z.leb_le in Hmov.
    cbn [app run_events]. unfold process_event. cbn [kind value release].
    rewrite decide_True by reflexivity. cbn -[elapsed max_movement_from_start].
    rewrite Hdur, Hmov. reflexivity.
  - destruct Htraj as [_ Htraj]. cbn [fst] in Hkey.
    cbn [app run_events].
    unfold process_event at 1. cbn [tap_key cancel_key Z.eqb Pos.eqb].
    destruct (kind ev) as [key|axis|] eqn:Hk.
    + rewrite decide_False by exact (fun e => Hkey (f_equal KeyEv e)).
      rewrite bool_decide_eq_false_2 by discriminate. cbn [andb option_bind mbind].
      rewrite (IH tracker Hlen Htraj). reflexivity.
    + unfold process_axis.
      destruct (record_axis_ok axis (value ev) now tracker Hlen) as [t' [chk [Hrec Hlen']]].
      rewrite Hrec in Htraj |- *.
      assert (Hstep : (if chk && start_captured t' then
                         match check_early_swipe t' swipe_threshold with
                         | Some dir => Some (GestureState.Idle, GestureEvent.SwipeDetected dir)
                         | None => Some (GestureState.FingersDown t0 t', GestureEvent.None)
                         end
                       else Some (GestureState.FingersDown t0 t', GestureEvent.None))
                      = Some (GestureState.FingersDown t0 t', GestureEvent.None)).
      { destruct (chk && start_captured t'); [|reflexivity].
        destruct evs as [|[e n] rest]; destruct Htraj as [Hdev _];
          rewrite (check_early_swipe_within t' tap_max_movement) by assumption;
          reflexivity. }
      cbn [mbind option_bind]. rewrite Hstep. cbn [mbind option_bind].
      rewrite (IH t' Hlen' Htraj). reflexivity.
    + cbn [mbind option_bind]. rewrite (IH tracker Hlen Htraj). reflexivity.
Qed.

(** C6 (counterexample): with the default configuration (4 fingers,
    [tap_max_duration = 200], [tap_max_movement = 500],
    [swipe_threshold = 300]) four fingers that each move 350 units keep the
    movement within [tap_max_movement] and are released after 120 ms, yet
    the early-swipe check returns [SwipeDetected Right] and no [FingersUp]
    is returned. *)
Lemma small_drift_swipes_instead_of_tap :
  tap_trajectory 500 (MultiTouchTracker_new 4) events_small_drift /\
  elapsed 0 120 <= 200 /\
  run_events 4 200 500 300 GestureState.Idle
    ((press BTN_TOOL_QUADTAP, 0) :: events_small_drift ++ [(release BTN_TOOL_QUADTAP, 120)])
  = Some (GestureState.Idle,
          GestureEvent.FingersDown :: repeat GestureEvent.None 23 ++
          [GestureEvent.SwipeDetected SwipeDirection.Right; GestureEvent.None]).
Proof.
  split; [|split].
  - vm_compute. repeat split; discriminate.
  - vm_compute. discriminate.
  - vm_compute. reflexivity.
Qed.

(** C6 (amended): in 4-finger mode, when [swipe_threshold] (an [i32]) is
    above [tap_max_movement], a press of the 4-finger key, then events other
    than that key that keep the movement within [tap_max_movement] (the
    exact deviation [|x - start_x|], [|y - start_y|] of every active slot
    with both start coordinates, as [spec_max_movement] measures it), then
    its release within [tap_max_duration], return [FingersDown], [None] for
    each event in between, and exactly one [FingersUp] at the release: no
    [SwipeDetected]. *)
Theorem four_finger_tap_emits_one_fingers_up (state : GestureState.t)
    (tap_max_duration tap_max_movement swipe_threshold t0 t1 : Z)
    (evs : list (InputEvent * Z))
    (Hthreshold : tap_max_movement < swipe_threshold)
    (Hi32 : swipe_threshold < 2 ^ 31)
    (Hduration : elapsed t0 t1 <= tap_max_duration)
    (Hevents : Forall (fun e => kind (fst e) <> KeyEv BTN_TOOL_QUADTAP) evs)
    (Hmovement : tap_trajectory tap_max_movement (MultiTouchTracker_new 4) evs) :
  run_events 4 tap_max_duration tap_max_movement swipe_threshold state
    ((press BTN_TOOL_QUADTAP, t0) :: evs ++ [(release BTN_TOOL_QUADTAP, t1)])
  = Some (GestureState.Idle,
          GestureEvent.FingersDown :: repeat GestureEvent.None (length evs) ++
          [GestureEvent.FingersUp]).
Proof.
  cbn [run_events]. unfold process_event at 1. cbn [kind value press tap_key Z.eqb Pos.eqb].
  rewrite decide_True by reflexivity. cbn [Z.eqb Pos.eqb Z.to_nat Pos.to_nat mbind option_bind].
  rewrite (tap_run_from_fingers_down tap_max_duration tap_max_movement swipe_threshold
             t0 t1 evs Hthreshold Hi32 Hduration Hevents); [reflexivity | reflexivity |].
  exact Hmovement.
Qed.

(** ** Settings conversions *)

(** [str_to_swipe] inverts [swipe_to_str]: the string of each action reads
    back as that action, and a string read as an action is that action's
    string (every other string is an error). *)
Theorem str_to_swipe_round_trip :
  (forall a : SwipeAction.t, str_to_swipe (swipe_to_str a) = Ok a) /\
  (forall (s : string) (a : SwipeAction.t), str_to_swipe s = Ok a -> s = swipe_to_str a).
Proof.
  split.
  - intros []; reflexivity.
  - intros s a. unfold str_to_swipe.
    repeat (match goal with |- context [String.eqb s ?t] =>
              destruct (String.eqb_spec s t) as [->|_] end;
            [intros [= <-]; reflexivity|]).
    discriminate.
Qed.

(** The dropdown index conversions are inverse on the five entries of
    [SwipeAction::all]; an index past them reads as [SwipeAction::None],
    shown at index 0. *)
Theorem swipe_index_round_trip :
  (forall a : SwipeAction.t, index_to_swipe_action (swipe_action_to_index a) = a) /\
  (forall i : nat, (i < length all)%nat ->
     swipe_action_to_index (index_to_swipe_action i) = i) /\
  (forall i : nat, (length all <= i)%nat ->
     index_to_swipe_action i = SwipeAction.None /\
     swipe_action_to_index (index_to_swipe_action i) = 0%nat).
Proof.
  split; [|split].
  - intros []; reflexivity.
  - intros i Hi. cbn in Hi.
    do 5 (destruct i as [|i]; [reflexivity|]). lia.
  - intros i Hi. unfold index_to_swipe_action.
    rewrite (lookup_ge_None_2 all i Hi). split; reflexivity.
Qed.

(** ** The workspace layout *)

Lemma append_String (c : Ascii.ascii) (s t : string) :
  (String c s ++ t)%string = String c (s ++ t)%string.
Proof. reflexivity. Qed.

Lemma prefix_app (n h : string) :
  String.prefix n h = true <-> exists b, h = (n ++ b)%string.
Proof.
  revert h. induction n as [|c n IH]; intros h.
  - split; [intros _; exists h; reflexivity | destruct h; reflexivity].
  - destruct h as [|c' h]; cbn.
    + split; [discriminate | intros [b Hb]; discriminate].
    + destruct (Ascii.ascii_dec c c') as [<-|Hne].
      * rewrite IH. split; intros [b Hb]; exists b.
        -- rewrite Hb. reflexivity.
        -- rewrite append_String in Hb. congruence.
      * split; [discriminate | intros [b Hb]; rewrite append_String in Hb; congruence].
Qed.

Lemma contains_app (h n : string) :
  contains h n = true <-> exists a b, h = (a ++ n ++ b)%string.
Proof.
  induction h as [|c h IH]; cbn [contains].
  - rewrite orb_true_iff, prefix_app. split.
    + intros [[b Hb] | H]; [|discriminate]. exists EmptyString, b. exact Hb.
    + intros [a [b Hb]]. destruct a; [left; exists b; exact Hb |].
      rewrite append_String in Hb. discriminate.
  - rewrite orb_true_iff, prefix_app, IH. split.
    + intros [[b Hb] | [a [b Hb]]].
      * exists EmptyString, b. exact Hb.
      * exists (String c a), b. rewrite Hb. reflexivity.
    + intros [a [b Hb]]. destruct a as [|c' a].
      * left. exists b. exact Hb.
      * right. exists a, b. rewrite append_String in Hb. congruence.
Qed.

(** [read_workspace_layout] reports a vertical layout exactly when the file
    could be read and contains the text [Vertical] anywhere, in the
    [workspace_layout] field or not; a missing or unreadable file reads as
    horizontal. *)
Theorem read_workspace_layout_vertical (content : option string) :
  read_workspace_layout content = WorkspaceLayout.Vertical <->
  exists c a b, content = Some c /\ c = (a ++ "Vertical" ++ b)%string.
Proof.
  destruct content as [c|]; cbn.
  - destruct (contains c "Vertical") eqn:E.
    + apply contains_app in E as [a [b Hb]]. split; [intros _; eauto | reflexivity].
    + split; [discriminate|]. intros [c' [a [b [[= <-] Hb]]]].
      assert (contains c "Vertical" = true) by (apply contains_app; eauto). congruence.
  - split; [discriminate|]. intros [c [a [b [H _]]]]. discriminate.
Qed.

(** ** The swipe classifier is mirror symmetric *)

Lemma i32_abs_small (z : Z) : - 2 ^ 31 < z < 2 ^ 31 -> i32_abs z = Z.abs z.
Proof. intros H. unfold i32_abs. apply i32_wrap_small. lia. Qed.

(** Negating a nonzero delta whose components are not [i32::MIN] gives the
    opposite direction; the zero delta is classified [Up] both ways. *)
Theorem swipe_direction_mirror (dx dy : Z)
    (Hdx : - 2 ^ 31 < dx < 2 ^ 31) (Hdy : - 2 ^ 31 < dy < 2 ^ 31)
    (Hnz : (dx, dy) <> (0, 0)) :
  calculate_swipe_direction_from_delta (- dx) (- dy)
  = opposite (calculate_swipe_direction_from_delta dx dy).
Proof.
  assert (Hnz' : dx <> 0 \/ dy <> 0)
    by (destruct (Z.eq_dec dx 0), (Z.eq_dec dy 0); subst; auto).
  unfold calculate_swipe_direction_from_delta.
  rewrite !i32_abs_small by lia. rewrite !Z.abs_opp.
  destruct (Z.ltb_spec (Z.abs dy) (Z.abs dx)).
  - destruct (Z.ltb_spec 0 dx), (Z.ltb_spec 0 (- dx)); cbn; try reflexivity; lia.
  - destruct (Z.ltb_spec 0 dy), (Z.ltb_spec 0 (- dy)); cbn; try reflexivity; lia.
Qed.

(** ** Outside a finger-down cycle *)

(** In [Idle] and [PendingTrigger], every event other than a press of the
    configured key and (in 3-finger mode) a press of the 4-finger key
    leaves the state unchanged and returns [None]: releases, position
    updates and other keys are ignored. *)
Theorem waiting_states_ignore_other_events (ev : InputEvent) (state : GestureState.t)
    (now finger_count tap_max_duration tap_max_movement swipe_threshold : Z)
    (Hstate : forall start tracker, state <> GestureState.FingersDown start tracker)
    (Htap : ev <> press (tap_key finger_count))
    (Hcancel : forall k, cancel_key finger_count = Some k -> ev <> press k) :
  process_event ev state now finger_count tap_max_duration tap_max_movement swipe_threshold
  = Some (state, GestureEvent.None).
Proof.
  destruct ev as [[key|axis|] v]; unfold process_event; cbn [kind value].
  - destruct (decide (key = tap_key finger_count)) as [->|Hne].
    + destruct (Z.eqb_spec v 1) as [->|_]; [exfalso; apply Htap; reflexivity|].
      destruct (v =? 0); [|reflexivity].
      destruct state as [|start tracker|p]; [reflexivity | | reflexivity].
      exfalso. eapply Hstate. reflexivity.
    + destruct (bool_decide (Some key = cancel_key finger_count)) eqn:E; cbn [andb];
        [|reflexivity].
      destruct (Z.eqb_spec v 1) as [->|_]; [|reflexivity].
      apply bool_decide_eq_true in E. exfalso. apply (Hcancel key); [congruence | reflexivity].
  - destruct state as [|start tracker|p]; [reflexivity | | reflexivity].
    exfalso. eapply Hstate. reflexivity.
  - reflexivity.
Qed.

(** In 4-finger mode [process_event] never returns [TriggerCancelled] and
    never enters [PendingTrigger]. *)
Theorem four_finger_mode_never_pending (ev : InputEvent) (state state' : GestureState.t)
    (now finger_count tap_max_duration tap_max_movement swipe_threshold : Z)
    (ge : GestureEvent.t)
    (Hfc : finger_count <> 3)
    (Hstep : process_event ev state now finger_count tap_max_duration tap_max_movement
               swipe_threshold = Some (state', ge)) :
  ge <> GestureEvent.TriggerCancelled /\
  ((forall p, state <> GestureState.PendingTrigger p) ->
   forall p, state' <> GestureState.PendingTrigger p).
Proof.
  apply Z.eqb_neq in Hfc. unfold process_event, cancel_key in Hstep. rewrite Hfc in Hstep.
  destruct (kind ev) as [key|axis|].
  - destruct (decide _).
    + destruct (value ev =? 1);
        [injection Hstep as <- <-; split; [discriminate | intros _ p; discriminate]|].
      destruct (value ev =? 0); [|injection Hstep as <- <-; split; [discriminate | auto]].
      destruct state as [|start tracker|p0];
        [injection Hstep as <- <-; split; [discriminate | auto] | |
         injection Hstep as <- <-; split; [discriminate | auto]].
      destruct (_ && _); [|destruct (average_movement tracker)];
        injection Hstep as <- <-; (split; [discriminate | intros _ p; discriminate]).
    + rewrite bool_decide_eq_false_2 in Hstep by discriminate. cbn [andb] in Hstep.
      injection Hstep as <- <-. split; [discriminate | auto].
  - destruct state as [|start tracker|p0];
      [injection Hstep as <- <-; split; [discriminate | auto] | |
       injection Hstep as <- <-; split; [discriminate | auto]].
    unfold process_axis in Hstep.
    destruct (record_axis axis (value ev) now tracker) as [[t' chk]|];
      cbn [mbind option_bind] in Hstep; [|discriminate].
    destruct (chk && start_captured t'); [destruct (check_early_swipe t' swipe_threshold)|];
      injection Hstep as <- <-; (split; [discriminate | intros _ p; discriminate]).
  - injection Hstep as <- <-. split; [discriminate | auto].
Qed.

(** Each gesture event comes from one transition: [FingersDown] from a press
    of the configured key, into a fresh cycle; [FingersUp] only in 4-finger
    mode, from a release of the configured key in [FingersDown], into
    [Idle]; [TriggerCancelled] only in 3-finger mode, from a 4-finger press
    in [PendingTrigger], into [Idle]; [SwipeDetected] only from
    [FingersDown], into [Idle]. *)
Theorem gesture_event_transitions (ev : InputEvent) (state state' : GestureState.t)
    (now finger_count tap_max_duration tap_max_movement swipe_threshold : Z)
    (ge : GestureEvent.t)
    (Hstep : process_event ev state now finger_count tap_max_duration tap_max_movement
               swipe_threshold = Some (state', ge)) :
  match ge with
  | GestureEvent.FingersDown =>
      ev = press (tap_key finger_count) /\
      state' = GestureState.FingersDown now (MultiTouchTracker_new (Z.to_nat finger_count))
  | GestureEvent.FingersUp =>
      finger_count <> 3 /\ ev = release (tap_key finger_count) /\
      (exists start tracker, state = GestureState.FingersDown start tracker) /\
      state' = GestureState.Idle
  | GestureEvent.TriggerCancelled =>
      finger_count = 3 /\ ev = press BTN_TOOL_QUADTAP /\
      (exists p, state = GestureState.PendingTrigger p) /\ state' = GestureState.Idle
  | GestureEvent.SwipeDetected _ =>
      (exists start tracker, state = GestureState.FingersDown start tracker) /\
      state' = GestureState.Idle
  | GestureEvent.None => True
  end.
Proof.
  destruct ev as [[key|axis|] v]; unfold process_event in Hstep; cbn [kind value] in Hstep.
  - destruct (decide (key = tap_key finger_count)) as [->|Hne].
    + destruct (Z.eqb_spec v 1) as [->|Hv1].
      { injection Hstep as <- <-. split; reflexivity. }
      destruct (Z.eqb_spec v 0) as [->|Hv0]; [|injection Hstep as <- <-; exact I].
      destruct state as [|start tracker|p]; [injection Hstep as <- <-; exact I | |
                                             injection Hstep as <- <-; exact I].
      destruct (_ && _).
      * destruct (Z.eqb_spec finger_count 3); injection Hstep as <- <-; [exact I|].
        split; [assumption|]. split; [reflexivity|]. split; [eauto | reflexivity].
      * destruct (average_movement tracker). injection Hstep as <- <-.
        split; [eauto | reflexivity].
    + destruct (bool_decide (Some key = cancel_key finger_count)) eqn:E; cbn [andb] in Hstep;
        [|injection Hstep as <- <-; exact I].
      apply bool_decide_eq_true in E. unfold cancel_key in E.
      destruct (Z.eqb_spec finger_count 3) as [Hfc|]; [|discriminate].
      injection E as ->.
      destruct (Z.eqb_spec v 1) as [->|_]; [|injection Hstep as <- <-; exact I].
      destruct state as [|start tracker|p]; injection Hstep as <- <-; try exact I.
      split; [assumption|]. split; [reflexivity|]. split; [eauto | reflexivity].
  - destruct state as [|start tracker|p]; [injection Hstep as <- <-; exact I | |
                                           injection Hstep as <- <-; exact I].
    unfold process_axis in Hstep.
    destruct (record_axis axis v now tracker) as [[t' chk]|];
      cbn [mbind option_bind] in Hstep; [|discriminate].
    destruct (chk && start_captured t'); [destruct (check_early_swipe t' swipe_threshold)|];
      injection Hstep as <- <-; try exact I.
    split; [eauto | reflexivity].
  - injection Hstep as <- <-. exact I.
Qed.

(** ** What a finger-down cycle keeps *)

Lemma tracker_extends_trans (t1 t2 t3 : MultiTouchTracker) :
  tracker_extends t1 t2 -> tracker_extends t2 t3 -> tracker_extends t1 t3.
Proof.
  intros (C12 & F12 & M12 & L12 & S12) (C23 & F23 & M23 & L23 & S23).
  split; [auto|]. split; [auto|]. split; [congruence|]. split; [congruence|].
  intros i s Hs. destruct (S12 i s Hs) as (s2 & Hs2 & X2 & Y2).
  destruct (S23 i s2 Hs2) as (s3 & Hs3 & X3 & Y3).
  exists s3. split; [exact Hs3|]. split; intros v Hv; auto.
Qed.

Lemma set_current_slot_extends (t : MultiTouchTracker) (n : nat) :
  tracker_extends t (set_current_slot t n).
Proof. repeat split; auto. intros i s Hs. exists s. auto. Qed.

Lemma mark_event_extends (now : Z) (t : MultiTouchTracker) :
  tracker_extends t (mark_event now t).
Proof.
  unfold mark_event. destruct (first_event_time t) as [v0|] eqn:E.
  - repeat split; auto. intros i s Hs. exists s. auto.
  - repeat split; cbn; auto; [intros v Hv; congruence|]. intros i s Hs. exists s. auto.
Qed.

Lemma try_capture_start_extends (t : MultiTouchTracker) :
  tracker_extends t (try_capture_start t).
Proof.
  unfold try_capture_start. destruct (start_captured t) eqn:E.
  - repeat split; auto. intros i s Hs. exists s. auto.
  - destruct (Nat.leb _ _); repeat split; cbn; auto; intros i s Hs; exists s; auto.
Qed.

Lemma update_slot_extends (t : MultiTouchTracker) (i : nat) (f : TouchSlot -> TouchSlot)
    (ss' : list TouchSlot) :
  (forall s, (forall v, start_x s = Some v -> start_x (f s) = Some v) /\
             (forall v, start_y s = Some v -> start_y (f s) = Some v)) ->
  update_slot (slots t) i f = Some ss' ->
  tracker_extends t (set_slots t ss').
Proof.
  intros Hf. unfold update_slot. destruct (slots t !! i) as [s0|] eqn:Ei; [|discriminate].
  intros [= <-]. repeat split; cbn; auto; [apply length_insert|].
  intros j s Hj. destruct (decide (i = j)) as [<-|Hne].
  - rewrite list_lookup_insert_eq by (eapply lookup_lt_Some; eauto).
    rewrite Ei in Hj. injection Hj as <-. exists (f s0). split; [reflexivity | apply Hf].
  - rewrite list_lookup_insert_ne by exact Hne. exists s. auto.
Qed.

Lemma record_position_extends (now : Z) (t t' : MultiTouchTracker) (i : nat)
    (f : TouchSlot -> TouchSlot) :
  (forall s, (forall v, start_x s = Some v -> start_x (f s) = Some v) /\
             (forall v, start_y s = Some v -> start_y (f s) = Some v)) ->
  record_position now t i f = Some t' -> tracker_extends t t'.
Proof.
  intros Hf. unfold record_position.
  destruct (update_slot (slots t) i f) as [ss|] eqn:E; cbn [mbind option_bind]; [|discriminate].
  intros [= <-].
  eapply tracker_extends_trans; [exact (update_slot_extends t i f ss Hf E)|].
  eapply tracker_extends_trans; [apply mark_event_extends | apply try_capture_start_extends].
Qed.

Lemma record_x_keeps (val : Z) (s : TouchSlot) :
  (forall v, start_x s = Some v -> start_x (record_x val s) = Some v) /\
  (forall v, start_y s = Some v -> start_y (record_x val s) = Some v).
Proof. cbn. destruct (start_x s); split; intros v Hv; congruence. Qed.

Lemma record_y_keeps (val : Z) (s : TouchSlot) :
  (forall v, start_x s = Some v -> start_x (record_y val s) = Some v) /\
  (forall v, start_y s = Some v -> start_y (record_y val s) = Some v).
Proof. cbn. destruct (start_y s); split; intros v Hv; congruence. Qed.

Lemma record_axis_extends (axis : AbsoluteAxisType) (val now : Z)
    (t t' : MultiTouchTracker) (chk : bool) :
  record_axis axis val now t = Some (t', chk) -> tracker_extends t t'.
Proof.
  destruct axis; cbn [record_axis].
  - destruct (_ <? _); intros [= <- _];
      [apply set_current_slot_extends | apply tracker_extends_trans with t;
                                         apply set_current_slot_extends with (n := current_slot t)].
  - destruct (Nat.ltb _ _); [|intros [= <- _]; exact (set_current_slot_extends t (current_slot t))].
    destruct (update_slot (slots t) (current_slot t) (set_active (0 <=? val))) as [ss|] eqn:E;
      cbn [mbind option_bind]; [|discriminate].
    intros [= <- _]. refine (update_slot_extends t _ _ ss _ E).
    intros s. split; intros v Hv; exact Hv.
  - destruct (Nat.ltb _ _); [|intros [= <- _]; exact (set_current_slot_extends t (current_slot t))].
    destruct (record_position now t (current_slot t) (record_x val)) as [t1|] eqn:E;
      cbn [mbind option_bind]; [|discriminate].
    intros [= <- _]. exact (record_position_extends now t t1 _ _ (record_x_keeps val) E).
  - destruct (Nat.ltb _ _); [|intros [= <- _]; exact (set_current_slot_extends t (current_slot t))].
    destruct (record_position now t (current_slot t) (record_y val)) as [t1|] eqn:E;
      cbn [mbind option_bind]; [|discriminate].
    intros [= <- _]. exact (record_position_extends now t t1 _ _ (record_y_keeps val) E).
  - destruct (record_position now t 0 (record_x val)) as [t1|] eqn:E;
      cbn [mbind option_bind]; [|discriminate].
    intros [= <- _]. exact (record_position_extends now t t1 _ _ (record_x_keeps val) E).
  - destruct (record_position now t 0 (record_y val)) as [t1|] eqn:E;
      cbn [mbind option_bind]; [|discriminate].
    intros [= <- _]. exact (record_position_extends now t t1 _ _ (record_y_keeps val) E).
  - intros [= <- _]. exact (set_current_slot_extends t (current_slot t)).
Qed.

(** An axis event that leaves the recognizer in [FingersDown] keeps the
    cycle's start time, returns [None], and only extends the tracker: the
    start coordinates of every slot, the first event time and the start
    latch, once set, never change until the next finger-down. *)
Theorem axis_event_extends_tracker (ev : InputEvent) (axis : AbsoluteAxisType)
    (start start' now finger_count tap_max_duration tap_max_movement swipe_threshold : Z)
    (tracker tracker' : MultiTouchTracker) (ge : GestureEvent.t)
    (Hkind : kind ev = AbsAxis axis)
    (Hstep : process_event ev (GestureState.FingersDown start tracker) now finger_count
               tap_max_duration tap_max_movement swipe_threshold
             = Some (GestureState.FingersDown start' tracker', ge)) :
  start' = start /\ ge = GestureEvent.None /\ tracker_extends tracker tracker'.
Proof.
  unfold process_event in Hstep. rewrite Hkind in Hstep. unfold process_axis in Hstep.
  destruct (record_axis axis (value ev) now tracker) as [[t1 chk]|] eqn:E;
    cbn [mbind option_bind] in Hstep; [|discriminate].
  apply record_axis_extends in E.
  destruct (chk && start_captured t1); [destruct (check_early_swipe t1 swipe_threshold)|];
    injection Hstep; try discriminate; intros <- <- <-; auto.
Qed.

(** ** The selected slot stays in range *)

Lemma current_slot_record_position (now : Z) (t t' : MultiTouchTracker) (i : nat)
    (f : TouchSlot -> TouchSlot) :
  record_position now t i f = Some t' -> current_slot t' = current_slot t.
Proof.
  unfold record_position.
  destruct (update_slot (slots t) i f) as [ss|]; cbn [mbind option_bind]; [|discriminate].
  intros [= <-]. unfold try_capture_start, mark_event.
  destruct (first_event_time _); cbn;
    (destruct (start_captured t); [reflexivity|]); destruct (Nat.leb _ _); reflexivity.
Qed.

Lemma record_axis_current_slot (axis : AbsoluteAxisType) (val now : Z)
    (t t' : MultiTouchTracker) (chk : bool) :
  (current_slot t < MAX_SLOTS)%nat ->
  record_axis axis val now t = Some (t', chk) -> (current_slot t' < MAX_SLOTS)%nat.
Proof.
  intros Hc. destruct axis; cbn [record_axis].
  - destruct (Z.ltb_spec (usize_of_i32 val) (Z.of_nat MAX_SLOTS)); intros [= <- _]; cbn;
      [unfold MAX_SLOTS in *; lia | exact Hc].
  - destruct (Nat.ltb _ _); [|intros [= <- _]; exact Hc].
    destruct (update_slot _ _ _); cbn [mbind option_bind]; [|discriminate].
    intros [= <- _]. exact Hc.
  - destruct (Nat.ltb _ _); [|intros [= <- _]; exact Hc].
    destruct (record_position now t (current_slot t) (record_x val)) as [t1|] eqn:E;
      cbn [mbind option_bind]; [|discriminate].
    intros [= <- _]. rewrite (current_slot_record_position _ _ _ _ _ E). exact Hc.
  - destruct (Nat.ltb _ _); [|intros [= <- _]; exact Hc].
    destruct (record_position now t (current_slot t) (record_y val)) as [t1|] eqn:E;
      cbn [mbind option_bind]; [|discriminate].
    intros [= <- _]. rewrite (current_slot_record_position _ _ _ _ _ E). exact Hc.
  - destruct (record_position now t 0 (record_x val)) as [t1|] eqn:E;
      cbn [mbind option_bind]; [|discriminate].
    intros [= <- _]. rewrite (current_slot_record_position _ _ _ _ _ E). exact Hc.
  - destruct (record_position now t 0 (record_y val)) as [t1|] eqn:E;
      cbn [mbind option_bind]; [|discriminate].
    intros [= <- _]. rewrite (current_slot_record_position _ _ _ _ _ E). exact Hc.
  - intros [= <- _]. exact Hc.
Qed.

Lemma process_event_current_slot_ok (ev : InputEvent) (state state' : GestureState.t)
    (now finger_count tap_max_duration tap_max_movement swipe_threshold : Z)
    (ge : GestureEvent.t) :
  current_slot_ok state ->
  process_event ev state now finger_count tap_max_duration tap_max_movement
    swipe_threshold = Some (state', ge) ->
  current_slot_ok state'.
Proof.
  intros Hok. unfold process_event.
  destruct (kind ev) as [key|axis|].
  - destruct (decide _).
    + destruct (value ev =? 1); [intros [= <- _]; cbn; unfold MAX_SLOTS; lia|].
      destruct (value ev =? 0); [|intros [= <- _]; exact Hok].
      destruct state as [|start tracker|p]; [intros [= <- _]; exact Hok | |
                                             intros [= <- _]; exact Hok].
      destruct (_ && _); [destruct (finger_count =? 3)|destruct (average_movement tracker)];
        intros [= <- _]; exact I.
    + destruct (_ && _); [destruct state|]; intros [= <- _]; cbn; auto.
  - destruct state as [|start tracker|p]; [intros [= <- _]; exact Hok | |
                                           intros [= <- _]; exact Hok].
    unfold process_axis.
    destruct (record_axis axis (value ev) now tracker) as [[t1 chk]|] eqn:E;
      cbn [mbind option_bind]; [|discriminate].
    pose proof (record_axis_current_slot _ _ _ _ _ _ Hok E) as Hc.
    destruct (chk && start_captured t1); [destruct (check_early_swipe t1 swipe_threshold)|];
      intros [= <- _]; cbn; auto.
  - intros [= <- _]. exact Hok.
Qed.

(** From a state whose selected slot is valid ([Idle] and [PendingTrigger]
    included), every state [run_events] reaches has a valid selected slot:
    the [slot < MAX_SLOTS] guards of the tracking-id and multitouch
    position arms never fail on a tracker the recognizer builds. *)
Theorem current_slot_stays_in_range (finger_count tap_max_duration tap_max_movement
      swipe_threshold : Z) (state state' : GestureState.t) (evs : list (InputEvent * Z))
    (ges : list GestureEvent.t)
    (Hok : current_slot_ok state)
    (Hrun : run_events finger_count tap_max_duration tap_max_movement swipe_threshold
              state evs = Some (state', ges)) :
  current_slot_ok state'.
Proof.
  revert state ges Hok Hrun. induction evs as [|[ev now] evs IH]; intros state ges Hok Hrun.
  - cbn in Hrun. injection Hrun as <- _. exact Hok.
  - cbn [run_events] in Hrun.
    destruct (process_event ev state now finger_count tap_max_duration tap_max_movement
                swipe_threshold) as [[s1 ge]|] eqn:E; cbn [mbind option_bind] in Hrun;
      [|discriminate].
    destruct (run_events finger_count tap_max_duration tap_max_movement swipe_threshold s1 evs)
      as [[s2 ges']|] eqn:E2; cbn [mbind option_bind] in Hrun; [|discriminate].
    injection Hrun as <- _.
    exact (IH s1 ges' (process_event_current_slot_ok _ _ _ _ _ _ _ _ _ Hok E) E2).
Qed.

(** ** Event sequences never panic *)

(** From a well-formed state (every state [run_events] starts from in the
    loop), a sequence of events never makes [process_event] panic, returns
    one gesture event per input event and ends in a well-formed state. *)
Theorem run_events_never_panics (finger_count tap_max_duration tap_max_movement
      swipe_threshold : Z) (state : GestureState.t) (evs : list (InputEvent * Z))
    (Hwf : state_wf state) :
  exists state' ges,
    run_events finger_count tap_max_duration tap_max_movement swipe_threshold state evs
    = Some (state', ges) /\ state_wf state' /\ length ges = length evs.
Proof.
  revert state Hwf. induction evs as [|[ev now] evs IH]; intros state Hwf.
  - exists state, []. auto.
  - destruct (process_event_total ev state now finger_count tap_max_duration
                tap_max_movement swipe_threshold Hwf) as (s1 & ge & E & Hwf1).
    destruct (IH s1 Hwf1) as (s2 & ges & E2 & Hwf2 & Hlen).
    exists s2, (ge :: ges). cbn [run_events]. rewrite E. cbn [mbind option_bind].
    rewrite E2. cbn. auto.
Qed.

(** ** The gesture loop *)

Lemma dispatch_last_opened_ok (cfg : GestureConfig.t) (layout : WorkspaceLayout.t)
    (can_spawn : string -> bool) (rx_alive : bool) (lo lo' : LastOpened)
    (ge : GestureEvent.t) (effs : list Effect) (flow : LoopFlow) :
  last_opened_ok lo ->
  dispatch cfg layout can_spawn rx_alive lo ge = (lo', effs, flow) ->
  last_opened_ok lo'.
Proof.
  intros Hlo. unfold dispatch, swipe_dispatch, spawn_with_fallback.
  destruct ge as [| | | |d]; try (intros [= <- _ _]; exact Hlo).
  destruct (direction_allowed layout d); cbn [negb]; [|intros [= <- _ _]; exact Hlo].
  destruct lo as [[pa pd]|]; [destruct pa | destruct (configured_action cfg d)];
    cbn [command];
    repeat match goal with |- context [if ?b then _ else _] => destruct b end;
    intros [= <- _ _]; cbn; solve [exact Hlo | exact I | discriminate].
Qed.

(** Along the events of a loop iteration, the recorded overlay is always
    one with a command ([AppLibrary], [Launcher] or [Workspaces]): never
    [None] and never [PieMenu], which has no toggle tracking. *)
Theorem last_opened_has_command (cfg : GestureConfig.t) (layout : WorkspaceLayout.t)
    (can_spawn : string -> bool) (rx_alive : bool) (state state' : GestureState.t)
    (lo lo' : LastOpened) (evs : list (InputEvent * Z)) (effs : list Effect)
    (flow : LoopFlow)
    (Hlo : last_opened_ok lo)
    (Hrun : handle_events cfg layout can_spawn rx_alive state lo evs
            = Some (state', lo', effs, flow)) :
  last_opened_ok lo'.
Proof.
  revert state state' lo effs flow Hlo Hrun.
  induction evs as [|[ev now] evs IH]; intros state state' lo effs flow Hlo Hrun.
  - cbn in Hrun. injection Hrun as _ <- _ _. exact Hlo.
  - cbn [handle_events] in Hrun.
    destruct (process_event _ _ _ _ _ _ _) as [[s1 ge]|]; cbn [mbind option_bind] in Hrun;
      [|discriminate].
    destruct (dispatch cfg layout can_spawn rx_alive lo ge) as [[lo1 e1] f1] eqn:E.
    pose proof (dispatch_last_opened_ok _ _ _ _ _ _ _ _ _ Hlo E) as Hlo1.
    destruct f1.
    + destruct (handle_events cfg layout can_spawn rx_alive s1 lo1 evs)
        as [[[[s2 lo2] e2] f2]|] eqn:E2; cbn [mbind option_bind] in Hrun; [|discriminate].
      injection Hrun as _ <- _ _. exact (IH _ _ _ _ _ Hlo1 E2).
    + injection Hrun as _ <- _ _. exact Hlo1.
Qed.

(** A swipe in a direction the workspace layout reserves for workspace
    switching (left and right with a horizontal layout, which is also what
    a missing or unreadable COSMIC configuration gives; up and down with a
    vertical one) only sends [Reset]: nothing is spawned and the recorded
    overlay is kept. *)
Theorem reserved_direction_swipe_ignored (cfg : GestureConfig.t) (content : option string)
    (can_spawn : string -> bool) (rx_alive : bool) (lo : LastOpened)
    (d : SwipeDirection.t)
    (Hreserved :
       (read_workspace_layout content = WorkspaceLayout.Horizontal /\
        (d = SwipeDirection.Left \/ d = SwipeDirection.Right)) \/
       (read_workspace_layout content = WorkspaceLayout.Vertical /\
        (d = SwipeDirection.Up \/ d = SwipeDirection.Down))) :
  dispatch cfg (read_workspace_layout content) can_spawn rx_alive lo
    (GestureEvent.SwipeDetected d)
  = (lo, [Send GestureMessage.Reset], Continue).
Proof.
  destruct Hreserved as [[-> [-> | ->]] | [-> [-> | ->]]]; reflexivity.
Qed.

(** With nothing open, an allowed swipe whose configured action has a
    command spawns it and records it; the next allowed swipe, in any
    direction and whatever that direction's configured action, spawns the
    same command again (toggling the overlay closed) and clears the record. *)
Theorem swipe_opens_then_closes (cfg : GestureConfig.t) (layout : WorkspaceLayout.t)
    (can_spawn : string -> bool) (rx_alive : bool) (d1 d2 : SwipeDirection.t)
    (cmd : string)
    (Hd1 : direction_allowed layout d1 = true)
    (Hd2 : direction_allowed layout d2 = true)
    (Hcmd : command (configured_action cfg d1) = Some cmd)
    (Hspawn : can_spawn cmd = true) :
  dispatch cfg layout can_spawn rx_alive None (GestureEvent.SwipeDetected d1)
  = (Some (configured_action cfg d1, d1),
     [Send GestureMessage.Reset; Spawn cmd], Continue) /\
  dispatch cfg layout can_spawn rx_alive (Some (configured_action cfg d1, d1))
    (GestureEvent.SwipeDetected d2)
  = (None, [Send GestureMessage.Reset; Spawn cmd], Continue).
Proof.
  unfold dispatch, swipe_dispatch, spawn_with_fallback. rewrite Hd1, Hd2. cbn [negb].
  destruct (configured_action cfg d1); cbn [command] in Hcmd |- *;
    try discriminate; injection Hcmd as <-; rewrite Hspawn; split; reflexivity.
Qed.

(** When both the command and its [/usr/bin/] fallback fail to spawn, the
    swipe tries both and changes nothing: the overlay that was recorded
    (or none) stays recorded. *)
Theorem failed_spawn_keeps_last_opened (cfg : GestureConfig.t) (layout : WorkspaceLayout.t)
    (can_spawn : string -> bool) (rx_alive : bool) (lo : LastOpened)
    (d : SwipeDirection.t) (cmd : string)
    (Hd : direction_allowed layout d = true)
    (Hcmd : command (match lo with
                     | Some (prev_action, _) => prev_action
                     | None => configured_action cfg d
                     end) = Some cmd)
    (Hfail : can_spawn cmd = false)
    (Hfail' : can_spawn (String.append "/usr/bin/" cmd) = false) :
  dispatch cfg layout can_spawn rx_alive lo (GestureEvent.SwipeDetected d)
  = (lo, [Send GestureMessage.Reset; Spawn cmd; Spawn (String.append "/usr/bin/" cmd)],
     Continue).
Proof.
  unfold dispatch, swipe_dispatch, spawn_with_fallback. rewrite Hd. cbn [negb].
  destruct lo as [[pa pd]|]; [destruct pa | destruct (configured_action cfg d)];
    cbn [command] in Hcmd |- *; try discriminate; injection Hcmd as <-;
    rewrite Hfail, Hfail'; reflexivity.
Qed.

Lemma dispatch_return (cfg : GestureConfig.t) (layout : WorkspaceLayout.t)
    (can_spawn : string -> bool) (rx_alive : bool) (lo lo' : LastOpened)
    (ge : GestureEvent.t) (effs : list Effect) :
  dispatch cfg layout can_spawn rx_alive lo ge = (lo', effs, Return) ->
  rx_alive = false /\ exists effs0, effs = effs0 ++ [Send GestureMessage.ShowPieMenu].
Proof.
  unfold dispatch, swipe_dispatch, spawn_with_fallback.
  destruct ge as [| | | |d]; try discriminate.
  - destruct rx_alive; [discriminate|]. intros [= _ <-]. split; [reflexivity|].
    exists []. reflexivity.
  - destruct (direction_allowed layout d); cbn [negb]; [|discriminate].
    destruct lo as [[pa pd]|]; [destruct pa | destruct (configured_action cfg d)];
      cbn [command];
      repeat match goal with |- context [if ?b then _ else _] => destruct b end;
      try discriminate;
      intros [= _ <-]; (split; [reflexivity|]);
      exists [Send GestureMessage.Reset]; reflexivity.
Qed.

Lemma handle_events_return (cfg : GestureConfig.t) (layout : WorkspaceLayout.t)
    (can_spawn : string -> bool) (rx_alive : bool) (state state' : GestureState.t)
    (lo lo' : LastOpened) (evs : list (InputEvent * Z)) (effs : list Effect) :
  handle_events cfg layout can_spawn rx_alive state lo evs = Some (state', lo', effs, Return) ->
  rx_alive = false /\ exists effs0, effs = effs0 ++ [Send GestureMessage.ShowPieMenu].
Proof.
  revert state state' lo lo' effs.
  induction evs as [|[ev now] evs IH]; intros state state' lo lo' effs Hrun.
  - discriminate.
  - cbn [handle_events] in Hrun.
    destruct (process_event _ _ _ _ _ _ _) as [[s1 ge]|]; cbn [mbind option_bind] in Hrun;
      [|discriminate].
    destruct (dispatch cfg layout can_spawn rx_alive lo ge) as [[lo1 e1] f1] eqn:E.
    destruct f1.
    + destruct (handle_events cfg layout can_spawn rx_alive s1 lo1 evs)
        as [[[[s2 lo2] e2] f2]|] eqn:E2; cbn [mbind option_bind] in Hrun; [|discriminate].
      injection Hrun as _ _ <- ->.
      destruct (IH _ _ _ _ _ E2) as [Hrx [e0 ->]]. split; [exact Hrx|].
      exists (e1 ++ e0). rewrite app_assoc. reflexivity.
    + injection Hrun as _ _ <-. exact (dispatch_return _ _ _ _ _ _ _ _ E).
Qed.

(** [gesture_loop] returns only when the applet has dropped its receiver
    and a [ShowPieMenu] could not be sent, that [ShowPieMenu] being the
    last thing the iteration does; failed [FingersDown] and [Reset] sends
    are ignored, and while the applet listens the loop never returns. *)
Theorem loop_returns_only_on_lost_show (cfg : GestureConfig.t) (layout : WorkspaceLayout.t)
    (can_spawn : string -> bool) (rx_alive : bool) (state state' : GestureState.t)
    (lo lo' : LastOpened) (evs : list (InputEvent * Z)) (now : Z) (effs : list Effect)
    (Hit : loop_iteration cfg layout can_spawn rx_alive state lo evs now
           = Some (state', lo', effs, Return)) :
  rx_alive = false /\ exists effs0, effs = effs0 ++ [Send GestureMessage.ShowPieMenu].
Proof.
  unfold loop_iteration in Hit.
  destruct (handle_events cfg layout can_spawn rx_alive state lo evs)
    as [[[[s1 lo1] e1] f1]|] eqn:E; cbn [mbind option_bind] in Hit; [|discriminate].
  destruct f1.
  - destruct (check_pending_trigger s1 now) as [s2 []].
    + destruct rx_alive; [discriminate|]. injection Hit as _ _ <-.
      split; [reflexivity|]. exists e1. reflexivity.
    + discriminate.
  - injection Hit as _ _ <-. exact (handle_events_return _ _ _ _ _ _ _ _ _ _ E).
Qed.

Ltac not_in_effects :=
  let H := fresh "H" in
  intros H; repeat (destruct H as [H|H]; [discriminate|]); exact H.

Lemma dispatch_no_show (cfg : GestureConfig.t) (layout : WorkspaceLayout.t)
    (can_spawn : string -> bool) (rx_alive : bool) (lo lo' : LastOpened)
    (ge : GestureEvent.t) (effs : list Effect) (flow : LoopFlow) :
  ge <> GestureEvent.FingersUp ->
  (forall d, configured_action cfg d <> SwipeAction.PieMenu) ->
  last_opened_ok lo ->
  dispatch cfg layout can_spawn rx_alive lo ge = (lo', effs, flow) ->
  ~ In (Send GestureMessage.ShowPieMenu) effs /\ flow = Continue.
Proof.
  intros Hge Hcfg Hlo. unfold dispatch, swipe_dispatch, spawn_with_fallback.
  destruct ge as [| | | |d];
    try (intros [= _ <- <-]; split; [not_in_effects | reflexivity]).
  - exfalso. apply Hge. reflexivity.
  - destruct (direction_allowed layout d); cbn [negb];
      [|intros [= _ <- <-]; split; [not_in_effects | reflexivity]].
    destruct lo as [[pa pd]|]; [destruct pa | destruct (configured_action cfg d) eqn:Ea];
      cbn [command] in Hlo |- *;
      try (exfalso; apply Hlo; reflexivity);
      try (exfalso; exact (Hcfg d Ea));
      repeat match goal with |- context [if ?b then _ else _] => destruct b end;
      intros [= _ <- <-]; (split; [not_in_effects | reflexivity]).
Qed.

Lemma handle_events_no_show_3 (cfg : GestureConfig.t) (layout : WorkspaceLayout.t)
    (can_spawn : string -> bool) (rx_alive : bool) (state state' : GestureState.t)
    (lo lo' : LastOpened) (evs : list (InputEvent * Z)) (effs : list Effect)
    (flow : LoopFlow) :
  GestureConfig.finger_count cfg = 3 ->
  (forall d, configured_action cfg d <> SwipeAction.PieMenu) ->
  last_opened_ok lo ->
  handle_events cfg layout can_spawn rx_alive state lo evs = Some (state', lo', effs, flow) ->
  ~ In (Send GestureMessage.ShowPieMenu) effs /\ flow = Continue.
Proof.
  intros Hfc Hcfg. revert state state' lo lo' effs flow.
  induction evs as [|[ev now] evs IH]; intros state state' lo lo' effs flow Hlo Hrun.
  - cbn in Hrun. injection Hrun as _ _ <- <-. split; [intros []|reflexivity].
  - cbn [handle_events] in Hrun. rewrite Hfc in Hrun.
    destruct (process_event _ _ _ _ _ _ _) as [[s1 ge]|] eqn:Ep;
      cbn [mbind option_bind] in Hrun; [|discriminate].
    pose proof (process_event_3_never_fingers_up _ _ _ _ _ _ _ _ Ep) as Hge.
    destruct (dispatch cfg layout can_spawn rx_alive lo ge) as [[lo1 e1] f1] eqn:E.
    destruct (dispatch_no_show _ _ _ _ _ _ _ _ _ Hge Hcfg Hlo E) as [Hn1 ->].
    pose proof (dispatch_last_opened_ok _ _ _ _ _ _ _ _ _ Hlo E) as Hlo1.
    destruct (handle_events cfg layout can_spawn rx_alive s1 lo1 evs)
      as [[[[s2 lo2] e2] f2]|] eqn:E2; cbn [mbind option_bind] in Hrun; [|discriminate].
    injection Hrun as _ _ <- <-.
    destruct (IH _ _ _ _ _ _ Hlo1 E2) as [Hn2 ->]. split; [|reflexivity].
    rewrite in_app_iff. tauto.
Qed.

(** In 3-finger mode, with no direction configured to [PieMenu] and a
    recorded overlay (if any) with a command, a loop iteration sends
    [ShowPieMenu] only as its last message, from the pending-trigger check:
    the fetched events left the recognizer in [PendingTrigger p] with at
    least 150 ms elapsed at the check, which resets it to [Idle]. *)
Theorem three_finger_show_only_from_timer (cfg : GestureConfig.t)
    (layout : WorkspaceLayout.t) (can_spawn : string -> bool) (rx_alive : bool)
    (state state' : GestureState.t) (lo lo' : LastOpened) (evs : list (InputEvent * Z))
    (now : Z) (effs : list Effect) (flow : LoopFlow)
    (Hfc : GestureConfig.finger_count cfg = 3)
    (Hcfg : forall d, configured_action cfg d <> SwipeAction.PieMenu)
    (Hlo : last_opened_ok lo)
    (Hit : loop_iteration cfg layout can_spawn rx_alive state lo evs now
           = Some (state', lo', effs, flow)) :
  In (Send GestureMessage.ShowPieMenu) effs ->
  exists effs0 p,
    effs = effs0 ++ [Send GestureMessage.ShowPieMenu] /\
    ~ In (Send GestureMessage.ShowPieMenu) effs0 /\
    handle_events cfg layout can_spawn rx_alive state lo evs
    = Some (GestureState.PendingTrigger p, lo', effs0, Continue) /\
    PENDING_TRIGGER_DEBOUNCE <= elapsed p now /\
    state' = GestureState.Idle.
Proof.
  intros Hin. unfold loop_iteration in Hit.
  destruct (handle_events cfg layout can_spawn rx_alive state lo evs)
    as [[[[s1 lo1] e1] f1]|] eqn:E; cbn [mbind option_bind] in Hit; [|discriminate].
  destruct (handle_events_no_show_3 _ _ _ _ _ _ _ _ _ _ _ Hfc Hcfg Hlo E) as [Hn ->].
  destruct (check_pending_trigger s1 now) as [s2 fire] eqn:Ec.
  destruct fire.
  - injection Hit as <- <- <- _.
    unfold check_pending_trigger in Ec.
    destruct s1 as [|start tracker|p]; try discriminate.
    destruct (Z.leb_spec PENDING_TRIGGER_DEBOUNCE (elapsed p now)); [|discriminate].
    injection Ec as <-. exists e1, p. auto.
  - injection Hit as _ _ <- _. contradiction.
Qed.

(** [dispatch_all] is what [handle_events] does with the gesture events
    [run_events] computes *)
Lemma handle_events_run (cfg : GestureConfig.t) (layout : WorkspaceLayout.t)
    (can_spawn : string -> bool) (rx_alive : bool) (state state' : GestureState.t)
    (lo lo' : LastOpened) (evs : list (InputEvent * Z)) (ges : list GestureEvent.t)
    (effs : list Effect) (flow : LoopFlow) :
  run_events (GestureConfig.finger_count cfg) (GestureConfig.tap_max_duration cfg)
    (GestureConfig.tap_max_movement cfg) (GestureConfig.swipe_threshold cfg) state evs
  = Some (state', ges) ->
  dispatch_all cfg layout can_spawn rx_alive lo ges = (lo', effs, flow) ->
  exists state'', handle_events cfg layout can_spawn rx_alive state lo evs
                  = Some (state'', lo', effs, flow) /\
                  (flow = Continue -> state'' = state').
Proof.
  revert state lo ges effs flow.
  induction evs as [|[ev now] evs IH]; intros state lo ges effs flow Hrun Hd.
  - cbn in Hrun. injection Hrun as <- <-. cbn in Hd. injection Hd as <- <- <-.
    exists state. auto.
  - cbn [run_events] in Hrun. cbn [handle_events].
    destruct (process_event _ _ _ _ _ _ _) as [[s1 ge]|]; cbn [mbind option_bind] in Hrun |- *;
      [|discriminate].
    destruct (run_events _ _ _ _ s1 evs) as [[s2 ges']|] eqn:E2;
      cbn [mbind option_bind] in Hrun; [|discriminate].
    injection Hrun as <- <-. cbn [dispatch_all] in Hd.
    destruct (dispatch cfg layout can_spawn rx_alive lo ge) as [[lo1 e1] f1].
    destruct f1.
    + destruct (dispatch_all cfg layout can_spawn rx_alive lo1 ges') as [[lo2 e2] f2] eqn:Ed.
      injection Hd as <- <- <-.
      destruct (IH s1 lo1 ges' e2 f2 E2 Ed) as (s3 & -> & Hs3).
      cbn [mbind option_bind]. exists s3. auto.
    + injection Hd as <- <- <-. exists s1. split; [reflexivity | discriminate].
Qed.

Lemma dispatch_all_nones (cfg : GestureConfig.t) (layout : WorkspaceLayout.t)
    (can_spawn : string -> bool) (rx_alive : bool) (lo : LastOpened) (n : nat)
    (rest : list GestureEvent.t) :
  dispatch_all cfg layout can_spawn rx_alive lo (repeat GestureEvent.None n ++ rest)
  = dispatch_all cfg layout can_spawn rx_alive lo rest.
Proof.
  induction n as [|n IH]; [reflexivity|].
  cbn [repeat app dispatch_all dispatch]. rewrite IH.
  destruct (dispatch_all cfg layout can_spawn rx_alive lo rest) as [[lo2 e2] f2].
  reflexivity.
Qed.

Lemma run_events_length (fc d m th : Z) (state state' : GestureState.t)
    (evs : list (InputEvent * Z)) (ges : list GestureEvent.t) :
  run_events fc d m th state evs = Some (state', ges) -> length ges = length evs.
Proof.
  revert state ges. induction evs as [|[ev now] evs IH]; intros state ges Hrun.
  - cbn in Hrun. injection Hrun as <- <-. reflexivity.
  - cbn [run_events] in Hrun.
    destruct (process_event _ _ _ _ _ _ _) as [[s1 ge]|]; cbn [mbind option_bind] in Hrun;
      [|discriminate].
    destruct (run_events _ _ _ _ s1 evs) as [[s2 ges']|] eqn:E2;
      cbn [mbind option_bind] in Hrun; [|discriminate].
    injection Hrun as <- <-. cbn. rewrite (IH s1 ges' E2). reflexivity.
Qed.

(** The loop over a run whose gesture events before the last one all let
    the loop continue: the last one decides the flow, and the state is the
    recognizer's state after the whole run. *)
Lemma handle_events_run_last (cfg : GestureConfig.t) (layout : WorkspaceLayout.t)
    (can_spawn : string -> bool) (rx_alive : bool) (state state' : GestureState.t)
    (lo lo1 lo2 : LastOpened) (evs : list (InputEvent * Z)) (ges : list GestureEvent.t)
    (ge : GestureEvent.t) (effs1 effs2 : list Effect) (flow : LoopFlow) :
  run_events (GestureConfig.finger_count cfg) (GestureConfig.tap_max_duration cfg)
    (GestureConfig.tap_max_movement cfg) (GestureConfig.swipe_threshold cfg) state evs
  = Some (state', ges ++ [ge]) ->
  dispatch_all cfg layout can_spawn rx_alive lo ges = (lo1, effs1, Continue) ->
  dispatch cfg layout can_spawn rx_alive lo1 ge = (lo2, effs2, flow) ->
  handle_events cfg layout can_spawn rx_alive state lo evs
  = Some (state', lo2, effs1 ++ effs2, flow).
Proof.
  revert state lo ges effs1.
  induction evs as [|[ev now] evs IH]; intros state lo ges effs1 Hrun Hd Hlast.
  - cbn in Hrun. injection Hrun as _ Hg. destruct ges; discriminate.
  - cbn [run_events] in Hrun. cbn [handle_events].
    destruct (process_event _ _ _ _ _ _ _) as [[s1 g1]|]; cbn [mbind option_bind] in Hrun |- *;
      [|discriminate].
    destruct (run_events _ _ _ _ s1 evs) as [[s2 ges']|] eqn:E2;
      cbn [mbind option_bind] in Hrun; [|discriminate].
    injection Hrun as <- Hg. destruct ges as [|g0 ges0].
    + injection Hg as -> ->. cbn in Hd. injection Hd as <- <-.
      pose proof (run_events_length _ _ _ _ _ _ _ _ E2) as Hl.
      destruct evs; [|discriminate]. cbn in E2. injection E2 as ->.
      rewrite Hlast. destruct flow; cbn; [rewrite app_nil_r|]; reflexivity.
    + injection Hg as -> ->. cbn [dispatch_all] in Hd.
      destruct (dispatch cfg layout can_spawn rx_alive lo g0) as [[la ea] fa].
      destruct fa; [|discriminate].
      destruct (dispatch_all cfg layout can_spawn rx_alive la ges0) as [[lb eb] fb] eqn:Ed.
      injection Hd as -> <- ->.
      rewrite (IH s1 la ges0 eb E2 Ed Hlast). cbn [mbind option_bind].
      rewrite app_assoc. reflexivity.
Qed.

(** A 4-finger tap (finger-down, events that keep the movement of the
    tracked fingers within [tap_max_movement] below the swipe threshold,
    finger-up within [tap_max_duration]) makes the loop send the applet
    [FingersDown] then [ShowPieMenu], and nothing else: no spawn, the
    recorded overlay kept, the recognizer back in [Idle]. The loop goes on
    while the applet receives, and returns when the [ShowPieMenu] send
    fails. *)
Theorem four_finger_tap_loop_messages (cfg : GestureConfig.t) (layout : WorkspaceLayout.t)
    (can_spawn : string -> bool) (rx_alive : bool) (state : GestureState.t) (lo : LastOpened)
    (t0 t1 : Z) (evs : list (InputEvent * Z))
    (Hfc : GestureConfig.finger_count cfg = 4)
    (Hthreshold : GestureConfig.tap_max_movement cfg < GestureConfig.swipe_threshold cfg)
    (Hi32 : GestureConfig.swipe_threshold cfg < 2 ^ 31)
    (Hduration : elapsed t0 t1 <= GestureConfig.tap_max_duration cfg)
    (Hevents : Forall (fun e => kind (fst e) <> KeyEv BTN_TOOL_QUADTAP) evs)
    (Hmovement : tap_trajectory (GestureConfig.tap_max_movement cfg)
                   (MultiTouchTracker_new 4) evs) :
  handle_events cfg layout can_spawn rx_alive state lo
    ((press BTN_TOOL_QUADTAP, t0) :: evs ++ [(release BTN_TOOL_QUADTAP, t1)])
  = Some (GestureState.Idle, lo,
          [Send GestureMessage.FingersDown; Send GestureMessage.ShowPieMenu],
          if rx_alive then Continue else Return).
Proof.
  assert (Hrun : run_events (GestureConfig.finger_count cfg)
                   (GestureConfig.tap_max_duration cfg) (GestureConfig.tap_max_movement cfg)
                   (GestureConfig.swipe_threshold cfg) state
                   ((press BTN_TOOL_QUADTAP, t0) :: evs ++ [(release BTN_TOOL_QUADTAP, t1)])
                 = Some (GestureState.Idle,
                         (GestureEvent.FingersDown :: repeat GestureEvent.None (length evs)) ++
                         [GestureEvent.FingersUp])).
  { rewrite Hfc. cbn [run_events]. unfold process_event at 1.
    cbn [kind value press tap_key Z.eqb Pos.eqb].
    rewrite decide_True by reflexivity. cbn [Z.eqb Pos.eqb Z.to_nat Pos.to_nat mbind option_bind].
    rewrite (tap_run_from_fingers_down _ _ _ t0 t1 evs Hthreshold Hi32 Hduration Hevents);
      [reflexivity | reflexivity | exact Hmovement]. }
  assert (Hd : dispatch_all cfg layout can_spawn rx_alive lo
                 (GestureEvent.FingersDown :: repeat GestureEvent.None (length evs))
               = (lo, [Send GestureMessage.FingersDown], Continue)).
  { cbn [dispatch_all dispatch].
    rewrite <- (app_nil_r (repeat GestureEvent.None (length evs))).
    rewrite dispatch_all_nones. reflexivity. }
  exact (handle_events_run_last _ _ _ _ _ _ _ _ _ _ _ _ _ _ _ Hrun Hd eq_refl).
Qed.

(** ** Witnesses *)

Lemma tap_release_outcome_witness :
  elapsed 0 100 <= 200 /\ max_movement_from_start (MultiTouchTracker_new 3) <= 500 /\
  process_event (release (tap_key 3)) (GestureState.FingersDown 0 (MultiTouchTracker_new 3))
    100 3 200 500 300 = Some (GestureState.PendingTrigger 100, GestureEvent.None).
Proof.
  split; [vm_compute; discriminate|]. split; [vm_compute; discriminate|].
  apply (proj1 (tap_release_outcome 0 100 (MultiTouchTracker_new 3) 3 200 500 300
                  ltac:(vm_compute; discriminate) ltac:(vm_compute; discriminate))).
  reflexivity.
Defined.

Lemma swipe_release_outcome_witness :
  ~ (elapsed 0 500 <= 200 /\ max_movement_from_start (MultiTouchTracker_new 4) <= 500) /\
  process_event (release (tap_key 4)) (GestureState.FingersDown 0 (MultiTouchTracker_new 4))
    500 4 200 500 300
  = Some (GestureState.Idle, GestureEvent.SwipeDetected SwipeDirection.Up).
Proof.
  assert (H : ~ (elapsed 0 500 <= 200 /\ max_movement_from_start (MultiTouchTracker_new 4) <= 500))
    by (intros [Hd _]; vm_compute in Hd; apply Hd; reflexivity).
  split; [exact H|].
  exact (proj1 (swipe_release_outcome 0 500 (MultiTouchTracker_new 4) 4 200 500 300 H)).
Defined.

Lemma out_of_range_slot_dropped_witness :
  process_event (abs_ev ABS_MT_SLOT 12) (GestureState.FingersDown 0 (MultiTouchTracker_new 4))
    3 4 200 500 300
  = Some (GestureState.FingersDown 0 (MultiTouchTracker_new 4), GestureEvent.None).
Proof.
  refine (proj1 (out_of_range_slot_dropped (abs_ev ABS_MT_SLOT 12)
                  (GestureState.FingersDown 0 (MultiTouchTracker_new 4)) 3 4 200 500 300 _ _)).
  - cbn. lia.
  - left. split; [reflexivity|]. right. unfold MAX_SLOTS. cbn. lia.
Defined.

Lemma max_movement_from_start_spec_witness :
  max_movement_from_start
    {| current_slot := 0;
       slots := [{| active := true; x := 900; y := 50; start_x := Some 100; start_y := Some 40 |};
                 {| active := true; x := 0; y := 0; start_x := Some 0; start_y := None |}];
       start_captured := true; first_event_time := Some 0; min_fingers_for_start := 1 |}
  = 800.
Proof.
  rewrite max_movement_from_start_spec; [reflexivity|].
  repeat constructor.
Defined.

Lemma four_finger_tap_emits_one_fingers_up_witness :
  run_events 4 250 500 600 GestureState.Idle
    ((press BTN_TOOL_QUADTAP, 0) :: events_four_finger_tap ++ [(release BTN_TOOL_QUADTAP, 120)])
  = Some (GestureState.Idle,
          GestureEvent.FingersDown :: repeat GestureEvent.None 16 ++ [GestureEvent.FingersUp]).
Proof.
  apply (four_finger_tap_emits_one_fingers_up GestureState.Idle 250 500 600 0 120
           events_four_finger_tap).
  - lia.
  - lia.
  - unfold elapsed. lia.
  - unfold events_four_finger_tap. repeat (constructor; [discriminate |]). constructor.
  - vm_compute. repeat split; discriminate.
Defined.

Lemma swipe_direction_mirror_witness :
  calculate_swipe_direction_from_delta (Z.opp 40) (Z.opp (-25))
  = opposite (calculate_swipe_direction_from_delta 40 (-25)).
Proof. refine (swipe_direction_mirror 40 (-25) _ _ _); [lia | lia | intros [=]]. Defined.

Lemma waiting_states_ignore_other_events_witness :
  process_event (abs_ev ABS_MT_POSITION_X 5) (GestureState.PendingTrigger 0) 40 3 200 500 300
  = Some (GestureState.PendingTrigger 0, GestureEvent.None).
Proof.
  apply waiting_states_ignore_other_events.
  - intros start tracker H. discriminate.
  - intros [=].
  - intros k _ [=].
Defined.

Lemma four_finger_mode_never_pending_witness :
  GestureEvent.FingersUp <> GestureEvent.TriggerCancelled /\
  ((forall p, GestureState.FingersDown 0 (MultiTouchTracker_new 4)
              <> GestureState.PendingTrigger p) ->
   forall p, GestureState.Idle <> GestureState.PendingTrigger p).
Proof.
  apply (four_finger_mode_never_pending (release BTN_TOOL_QUADTAP)
           (GestureState.FingersDown 0 (MultiTouchTracker_new 4)) GestureState.Idle
           100 4 200 500 300 GestureEvent.FingersUp).
  - lia.
  - reflexivity.
Defined.

Lemma gesture_event_transitions_witness :
  3 = 3 /\ press BTN_TOOL_QUADTAP = press BTN_TOOL_QUADTAP /\
  (exists p, GestureState.PendingTrigger 10 = GestureState.PendingTrigger p) /\
  GestureState.Idle = GestureState.Idle.
Proof.
  exact (gesture_event_transitions (press BTN_TOOL_QUADTAP) (GestureState.PendingTrigger 10)
           GestureState.Idle 50 3 200 500 300 GestureEvent.TriggerCancelled eq_refl).
Defined.

Lemma axis_event_extends_tracker_witness :
  exists tracker',
    process_event (abs_ev ABS_MT_POSITION_X 100)
      (GestureState.FingersDown 0 (MultiTouchTracker_new 4)) 5 4 200 500 300
    = Some (GestureState.FingersDown 0 tracker', GestureEvent.None) /\
    tracker_extends (MultiTouchTracker_new 4) tracker'.
Proof.
  exists (match process_event (abs_ev ABS_MT_POSITION_X 100)
                  (GestureState.FingersDown 0 (MultiTouchTracker_new 4)) 5 4 200 500 300 with
          | Some (GestureState.FingersDown _ t, _) => t
          | _ => MultiTouchTracker_new 4
          end).
  split; [reflexivity|].
  exact (proj2 (proj2 (axis_event_extends_tracker (abs_ev ABS_MT_POSITION_X 100)
                         ABS_MT_POSITION_X 0 0 5 4 200 500 300 (MultiTouchTracker_new 4) _
                         GestureEvent.None eq_refl eq_refl))).
Defined.

Lemma current_slot_stays_in_range_witness :
  current_slot_ok
    (match run_events 4 250 500 600 GestureState.Idle
             ((press BTN_TOOL_QUADTAP, 0) :: events_four_finger_tap) with
     | Some (s, _) => s
     | None => GestureState.Idle
     end).
Proof.
  exact (current_slot_stays_in_range 4 250 500 600 GestureState.Idle _
           ((press BTN_TOOL_QUADTAP, 0) :: events_four_finger_tap) _ I eq_refl).
Defined.

Lemma run_events_never_panics_witness :
  exists state' ges,
    run_events 4 200 500 300 GestureState.Idle events_swipe_up = Some (state', ges) /\
    state_wf state' /\ length ges = length events_swipe_up.
Proof. exact (run_events_never_panics 4 200 500 300 GestureState.Idle events_swipe_up I). Defined.

Lemma last_opened_has_command_witness :
  handle_events GestureConfig.default WorkspaceLayout.Horizontal (fun _ => true) true
    GestureState.Idle None events_swipe_up
  = Some (GestureState.Idle, Some (SwipeAction.Workspaces, SwipeDirection.Up),
          [Send GestureMessage.FingersDown; Send GestureMessage.Reset;
           Spawn "cosmic-workspaces"], Continue) /\
  last_opened_ok (Some (SwipeAction.Workspaces, SwipeDirection.Up)).
Proof.
  assert (H : handle_events GestureConfig.default WorkspaceLayout.Horizontal (fun _ => true)
                true GestureState.Idle None events_swipe_up
              = Some (GestureState.Idle, Some (SwipeAction.Workspaces, SwipeDirection.Up),
                      [Send GestureMessage.FingersDown; Send GestureMessage.Reset;
                       Spawn "cosmic-workspaces"], Continue)) by reflexivity.
  split; [exact H|].
  exact (last_opened_has_command GestureConfig.default WorkspaceLayout.Horizontal
           (fun _ => true) true GestureState.Idle GestureState.Idle None _ events_swipe_up _
           Continue I H).
Defined.

Lemma reserved_direction_swipe_ignored_witness :
  dispatch GestureConfig.default (read_workspace_layout None) (fun _ => true) true None
    (GestureEvent.SwipeDetected SwipeDirection.Left)
  = (None, [Send GestureMessage.Reset], Continue).
Proof.
  exact (reserved_direction_swipe_ignored GestureConfig.default None (fun _ => true) true None
           SwipeDirection.Left (or_introl (conj eq_refl (or_introl eq_refl)))).
Defined.

Lemma swipe_opens_then_closes_witness :
  dispatch GestureConfig.default WorkspaceLayout.Horizontal (fun _ => true) true None
    (GestureEvent.SwipeDetected SwipeDirection.Down)
  = (Some (configured_action GestureConfig.default SwipeDirection.Down, SwipeDirection.Down),
     [Send GestureMessage.Reset; Spawn "cosmic-app-library"], Continue) /\
  dispatch GestureConfig.default WorkspaceLayout.Horizontal (fun _ => true) true
    (Some (configured_action GestureConfig.default SwipeDirection.Down, SwipeDirection.Down))
    (GestureEvent.SwipeDetected SwipeDirection.Up)
  = (None, [Send GestureMessage.Reset; Spawn "cosmic-app-library"], Continue).
Proof.
  exact (swipe_opens_then_closes GestureConfig.default WorkspaceLayout.Horizontal
           (fun _ => true) true SwipeDirection.Down SwipeDirection.Up "cosmic-app-library"
           eq_refl eq_refl eq_refl eq_refl).
Defined.

Lemma failed_spawn_keeps_last_opened_witness :
  dispatch GestureConfig.default WorkspaceLayout.Horizontal (fun _ => false) true
    (Some (SwipeAction.Launcher, SwipeDirection.Up))
    (GestureEvent.SwipeDetected SwipeDirection.Down)
  = (Some (SwipeAction.Launcher, SwipeDirection.Up),
     [Send GestureMessage.Reset; Spawn "cosmic-launcher";
      Spawn (String.append "/usr/bin/" "cosmic-launcher")], Continue).
Proof.
  exact (failed_spawn_keeps_last_opened GestureConfig.default WorkspaceLayout.Horizontal
           (fun _ => false) true (Some (SwipeAction.Launcher, SwipeDirection.Up))
           SwipeDirection.Down "cosmic-launcher" eq_refl eq_refl eq_refl eq_refl).
Defined.

Lemma loop_returns_only_on_lost_show_witness :
  false = false /\
  exists effs0, [Send GestureMessage.FingersDown; Send GestureMessage.ShowPieMenu]
                = effs0 ++ [Send GestureMessage.ShowPieMenu].
Proof.
  exact (loop_returns_only_on_lost_show GestureConfig.default WorkspaceLayout.Horizontal
           (fun _ => true) false GestureState.Idle GestureState.Idle None None
           [(press BTN_TOOL_QUADTAP, 0); (release BTN_TOOL_QUADTAP, 50)] 60
           [Send GestureMessage.FingersDown; Send GestureMessage.ShowPieMenu] eq_refl).
Defined.

Lemma three_finger_show_only_from_timer_witness :
  exists effs0 p,
    [Send GestureMessage.FingersDown; Send GestureMessage.ShowPieMenu]
    = effs0 ++ [Send GestureMessage.ShowPieMenu] /\
    ~ In (Send GestureMessage.ShowPieMenu) effs0 /\
    handle_events three_finger_config WorkspaceLayout.Horizontal (fun _ => true) true
      GestureState.Idle None [(press BTN_TOOL_TRIPLETAP, 0); (release BTN_TOOL_TRIPLETAP, 50)]
    = Some (GestureState.PendingTrigger p, None, effs0, Continue) /\
    PENDING_TRIGGER_DEBOUNCE <= elapsed p 300 /\
    GestureState.Idle = GestureState.Idle.
Proof.
  refine (three_finger_show_only_from_timer three_finger_config WorkspaceLayout.Horizontal
            (fun _ => true) true GestureState.Idle GestureState.Idle None None
            [(press BTN_TOOL_TRIPLETAP, 0); (release BTN_TOOL_TRIPLETAP, 50)] 300
            [Send GestureMessage.FingersDown; Send GestureMessage.ShowPieMenu] Continue
            eq_refl _ I eq_refl (or_intror (or_introl eq_refl))).
  intros [] [=].
Defined.

Lemma four_finger_tap_loop_messages_witness :
  handle_events
    {| GestureConfig.finger_count := 4; GestureConfig.tap_max_duration := 250;
       GestureConfig.tap_max_movement := 500; GestureConfig.swipe_threshold := 600;
       GestureConfig.swipe_up := SwipeAction.Workspaces;
       GestureConfig.swipe_down := SwipeAction.AppLibrary;
       GestureConfig.swipe_left := SwipeAction.None;
       GestureConfig.swipe_right := SwipeAction.None |}
    WorkspaceLayout.Horizontal (fun _ => true) false GestureState.Idle None
    ((press BTN_TOOL_QUADTAP, 0) :: events_four_finger_tap ++ [(release BTN_TOOL_QUADTAP, 120)])
  = Some (GestureState.Idle, None,
          [Send GestureMessage.FingersDown; Send GestureMessage.ShowPieMenu], Return).
Proof.
  apply (four_finger_tap_loop_messages _ _ _ false); cbn [GestureConfig.finger_count
    GestureConfig.tap_max_duration GestureConfig.tap_max_movement
    GestureConfig.swipe_threshold].
  - reflexivity.
  - lia.
  - lia.
  - unfold elapsed. lia.
  - unfold events_four_finger_tap. repeat (constructor; [discriminate |]). constructor.
  - vm_compute. repeat split; discriminate.
Defined.

End Gesture.
